(** * WorkExchange: the authentication and request layer

    A shallow embedding of the client's session handling:
    - [src/js/api.js]: the [apiService] object (token helpers, [request],
      [auth.register], [auth.login], [auth.getProfile], [auth.logout]);
    - [src/js/auth-guard.js]: the page-load guard;
    - the other [api.js] revisions found in the repository (raw-token
      variants with [requireAuth], [registerUser], [loginUser]).

    The browser is modelled by explicit state passing: [localStorage] is a
    finite map, [window.location.href = ...], [fetch] and the console are
    recorded in an event trace, and a rejected promise or a thrown
    exception is the left summand of the result. *)

From Stdlib Require Import ZArith String Ascii List Bool.
From Stdlib Require Import Decimal DecimalFacts DecimalPos DecimalString.
From stdpp Require Import gmap strings.

(** ** The JavaScript platform *)
Module JS.

(** [String.prototype.includes] *)
Fixpoint includes (s sub : string) : bool :=
  if String.prefix sub s then true
  else match s with
       | EmptyString => false
       | String _ s' => includes s' sub
       end.

(** [String.prototype.endsWith] *)
Definition endsWith (s suffix : string) : bool :=
  let n := String.length s in
  let m := String.length suffix in
  (m <=? n)%nat && String.eqb (substring (n - m) m s) suffix.

(** Template-literal rendering of an integer, as in [`${response.status}`]. *)
Definition string_of_Z (z : Z) : string := NilZero.string_of_int (Z.to_int z).

#[local] Set Warnings "-register-all".

(** JSON values, the results of [JSON.parse] and [response.json()].
    Objects keep their keys in enumeration order. Numbers are the safe
    integers, the ones JavaScript prints in plain decimal. *)
Inductive json : Type :=
  | JNull
  | JBool (b : bool)
  | JNum (n : Z)
  | JStr (s : string)
  | JArr (items : list json)
  | JObj (fields : list (string * json)).

(** A JavaScript value read out of parsed data: [None] is [undefined]. *)
Definition value : Type := option json.

(** Exceptions, by constructor name. *)
Inductive exn : Type :=
  | Error (message : string)
  | TypeError (message : string)
  | SyntaxError (message : string).

(** ToBoolean, as applied by [if (v)], [!v] and [v || w]. *)
Definition truthy (v : value) : bool :=
  match v with
  | None => false
  | Some JNull => false
  | Some (JBool b) => b
  | Some (JNum n) => negb (n =? 0)%Z
  | Some (JStr s) => negb (String.eqb s "")
  | Some (JArr _) => true
  | Some (JObj _) => true
  end.

(** ToBoolean of what [localStorage.getItem] returns ([None] is [null]). *)
Definition truthy_item (v : option string) : bool :=
  match v with
  | None => false
  | Some s => negb (String.eqb s "")
  end.

Fixpoint assoc (k : string) (fields : list (string * json)) : value :=
  match fields with
  | [] => None
  | (k', v) :: rest => if String.eqb k k' then Some v else assoc k rest
  end.

(** Property read [data.k] for the property names the sources read
    ([message], [error], [msg], [token], [user]); none of them is defined
    on a prototype, so only own properties of objects answer. Reading a
    property of [null] throws. *)
Definition get_prop (data : json) (k : string) : exn + value :=
  match data with
  | JNull =>
      inl (TypeError ("Cannot read properties of null (reading '" +:+ k +:+ "')"))
  | JObj fields => inr (assoc k fields)
  | _ => inr None
  end.

Definition has_key (k : string) (fields : list (string * json)) : bool :=
  existsb (fun kv => String.eqb k (fst kv)) fields.

(** ToString. Plain objects answer ["[object Object]"] unless an own
    (hence non-callable) [toString] shadows the inherited method, and
    arrays join their elements with commas, [null] elements as the empty
    string. *)
Fixpoint ToString (v : json) : exn + string :=
  match v with
  | JNull => inr "null"
  | JBool true => inr "true"
  | JBool false => inr "false"
  | JNum n => inr (string_of_Z n)
  | JStr s => inr s
  | JArr items =>
      let element (x : json) : exn + string :=
        match x with JNull => inr "" | _ => ToString x end in
      (fix join (l : list json) : exn + string :=
         match l with
         | [] => inr ""
         | [x] => element x
         | x :: rest =>
             match element x with
             | inl e => inl e
             | inr s =>
                 match join rest with
                 | inl e => inl e
                 | inr t => inr (s +:+ "," +:+ t)
                 end
             end
         end) items
  | JObj fields =>
      if has_key "toString" fields
      then inl (TypeError "Cannot convert object to primitive value")
      else inr "[object Object]"
  end.

(** The global [JSON] object, taken as an interface of the platform. *)
Class JSON_codec : Type := {
  JSON_parse : string -> option json;
  JSON_stringify : json -> string
}.

(** What [fetch] is called with: the URL and the init object. *)
Record Request : Type := {
  url : string;
  method : option string;
  headers : gmap string string;
  body : option string
}.

(** What [fetch] resolves to. [content_type] is
    [response.headers.get('content-type')]. *)
Record Response : Type := {
  status : Z;
  content_type : option string;
  text : string
}.

(** [options]: the init object a caller hands to a request function
    ([method], [headers], [body]). *)
Record Options : Type := {
  opt_method : option string;
  opt_headers : gmap string string;
  opt_body : option string
}.

(** [options = {}] *)
Definition no_options : Options :=
  {| opt_method := None; opt_headers := ∅; opt_body := None |}.

(** [response.ok] *)
Definition ok (r : Response) : bool := (200 <=? status r)%Z && (status r <=? 299)%Z.

Inductive event : Type :=
  | EFetch (r : Request)
  | ENavigate (href : string)
  | EConsoleError (label : string) (e : exn)
  | EConsoleLog (label : string).

(** The page's surroundings: the current [window.location.pathname] and
    the network, which answers a request knowing everything that happened
    before it, either with a response or with a rejection. *)
Record Env : Type := {
  pathname : string;
  server : list event -> Request -> exn + Response
}.

Record State : Type := {
  localStorage : gmap string string;
  events : list event
}.

(** Computations: read the surroundings, thread the state, and either
    throw/reject ([inl]) or return/resolve ([inr]). Each [await] is
    sequencing. *)
Definition M (A : Type) : Type := Env -> State -> State * (exn + A).

Definition ret {A} (a : A) : M A := fun _ st => (st, inr a).

Definition throw {A} (e : exn) : M A := fun _ st => (st, inl e).

Definition bind {A B} (m : M A) (k : A -> M B) : M B :=
  fun env st =>
    match m env st with
    | (st', inl e) => (st', inl e)
    | (st', inr a) => k a env st'
    end.

Definition try_catch {A} (m : M A) (handler : exn -> M A) : M A :=
  fun env st =>
    match m env st with
    | (st', inl e) => handler e env st'
    | (st', inr a) => (st', inr a)
    end.

Definition lift {A} (r : exn + A) : M A := fun _ st => (st, r).

Declare Scope js_scope.
Delimit Scope js_scope with js.
Notation "x <- m ;; k" := (bind m (fun x => k))
  (at level 100, m at next level, right associativity) : js_scope.
Notation "m ;;; k" := (bind m (fun _ => k))
  (at level 100, right associativity) : js_scope.
Open Scope js_scope.

(** [v || rest]: [v] when it is truthy, else whatever [rest] evaluates to. *)
Definition or_else (v : value) (rest : M json) : M json :=
  match v with
  | Some j => if truthy v then ret j else rest
  | None => rest
  end.

(** [new Error(v)] for a defined [v]: the message is [ToString(v)]. *)
Definition new_Error (v : json) : M exn :=
  s <- lift (ToString v) ;; ret (Error s).

Definition log (e : event) (st : State) : State :=
  {| localStorage := localStorage st; events := events st ++ [e] |}.

Definition getItem (key : string) : M (option string) :=
  fun _ st => (st, inr (localStorage st !! key)).

(** [localStorage.setItem]. The storage is taken to have room for every
    write: the [QuotaExceededError] of a full storage is not modelled. *)
Definition setItem (key val : string) : M unit :=
  fun _ st =>
    ({| localStorage := <[key := val]> (localStorage st); events := events st |}, inr tt).

Definition removeItem (key : string) : M unit :=
  fun _ st =>
    ({| localStorage := delete key (localStorage st); events := events st |}, inr tt).

Definition location_pathname : M string := fun env st => (st, inr (pathname env)).

(** [window.location.href = href]: the navigation is requested and the
    script goes on. *)
Definition set_location_href (href : string) : M unit :=
  fun _ st => (log (ENavigate href) st, inr tt).

Definition console_error (label : string) (e : exn) : M unit :=
  fun _ st => (log (EConsoleError label e) st, inr tt).

Definition console_log (label : string) : M unit :=
  fun _ st => (log (EConsoleLog label) st, inr tt).

Definition fetch (r : Request) : M Response :=
  fun env st => (log (EFetch r) st, server env (events st) r).

(** [response.json()] and [response.text()] *)
Definition response_json `{JSON_codec} (r : Response) : M json :=
  match JSON_parse (text r) with
  | Some v => ret v
  | None => throw (SyntaxError "Unexpected token in JSON")
  end.

Definition response_text (r : Response) : M string := ret (text r).

(** Trace queries. *)
Definition fetched (evs : list event) : list Request :=
  omap (fun e => match e with EFetch r => Some r | _ => None end) evs.

Definition navigations (evs : list event) : list string :=
  omap (fun e => match e with ENavigate h => Some h | _ => None end) evs.

End JS.

(** ** A reference [JSON] codec

    An executable stand-in for the platform's [JSON.stringify] and
    [JSON.parse] on the values of [JS.json]: compact output, the standard
    escapes, integer literals. It serves to run the request layer on
    concrete wire texts. *)
Module RefJSON.
Import JS.

Definition dq : ascii := "034"%char.
Definition backslash : ascii := "\"%char.

Definition hex_digit (n : nat) : ascii :=
  ascii_of_nat (if n <? 10 then 48 + n else 87 + n).

Definition escape_char (c : ascii) : string :=
  let n := nat_of_ascii c in
  if n =? 34 then String backslash (String dq "")
  else if n =? 92 then "\\"
  else if n =? 8 then "\b"
  else if n =? 12 then "\f"
  else if n =? 10 then "\n"
  else if n =? 13 then "\r"
  else if n =? 9 then "\t"
  else if n <? 32 then "\u00" +:+ String (hex_digit (n / 16)) (String (hex_digit (n mod 16)) "")
  else String c "".

Fixpoint escape (s : string) : string :=
  match s with
  | EmptyString => ""
  | String c s' => escape_char c +:+ escape s'
  end.

Definition quoted (s : string) : string :=
  String dq (escape s +:+ String dq "").

(** Comma-separated array elements and object members. *)
Definition elements (str : json -> string) : list json -> string :=
  fix go (l : list json) : string :=
    match l with
    | [] => ""
    | x :: rest =>
        match rest with
        | [] => str x
        | _ :: _ => str x +:+ String "," (go rest)
        end
    end.

Definition members (str : json -> string) : list (string * json) -> string :=
  fix go (l : list (string * json)) : string :=
    match l with
    | [] => ""
    | kv :: rest =>
        match rest with
        | [] => quoted (fst kv) +:+ String ":" (str (snd kv))
        | _ :: _ => quoted (fst kv) +:+ String ":" (str (snd kv) +:+ String "," (go rest))
        end
    end.

Fixpoint stringify (v : json) : string :=
  match v with
  | JNull => "null"
  | JBool true => "true"
  | JBool false => "false"
  | JNum n => string_of_Z n
  | JStr s => quoted s
  | JArr items => String "[" (elements stringify items +:+ "]")
  | JObj fields => String "{" (members stringify fields +:+ "}")
  end.

Definition is_ws (c : ascii) : bool :=
  let n := nat_of_ascii c in
  (n =? 32) || (n =? 9) || (n =? 10) || (n =? 13).

Fixpoint skip_ws (s : string) : string :=
  match s with
  | EmptyString => ""
  | String c s' => if is_ws c then skip_ws s' else s
  end.

Definition hex_value (c : ascii) : option nat :=
  let n := nat_of_ascii c in
  if (48 <=? n) && (n <=? 57) then Some (n - 48)
  else if (97 <=? n) && (n <=? 102) then Some (n - 87)
  else if (65 <=? n) && (n <=? 70) then Some (n - 55)
  else None.

Definition unescape (c : ascii) : option ascii :=
  let n := nat_of_ascii c in
  if n =? 34 then Some dq
  else if n =? 92 then Some backslash
  else if n =? 47 then Some "/"%char
  else if n =? 98 then Some (ascii_of_nat 8)
  else if n =? 102 then Some (ascii_of_nat 12)
  else if n =? 110 then Some (ascii_of_nat 10)
  else if n =? 114 then Some (ascii_of_nat 13)
  else if n =? 116 then Some (ascii_of_nat 9)
  else None.

Definition cons_char (c : ascii) (r : option (string * string)) : option (string * string) :=
  match r with
  | Some (str, rest) => Some (String c str, rest)
  | None => None
  end.

(** The characters of a string literal, after its opening quote. *)
Fixpoint parse_chars (s : string) : option (string * string) :=
  match s with
  | EmptyString => None
  | String c s' =>
      if Ascii.eqb c dq then Some ("", s')
      else if Ascii.eqb c backslash then
        match s' with
        | String "u" (String a (String b (String x (String y s'')))) =>
            match hex_value a, hex_value b, hex_value x, hex_value y with
            | Some 0, Some 0, Some h, Some l =>
                if h <? 8 then cons_char (ascii_of_nat (16 * h + l)) (parse_chars s'')
                else None
            | _, _, _, _ => None
            end
        | String e s'' =>
            match unescape e with
            | Some ch => cons_char ch (parse_chars s'')
            | None => None
            end
        | EmptyString => None
        end
      else if nat_of_ascii c <? 32 then None
      else cons_char c (parse_chars s')
  end.

Definition is_digit (c : ascii) : bool :=
  let n := nat_of_ascii c in (48 <=? n) && (n <=? 57).

(** The longest prefix of digits, and what follows it. *)
Fixpoint span_digits (s : string) : string * string :=
  match s with
  | EmptyString => ("", "")
  | String c s' =>
      if is_digit c
      then let '(lit, rest) := span_digits s' in (String c lit, rest)
      else ("", s)
  end.

(** What may follow an integer literal: not a fraction, not an exponent. *)
Definition ends_number (rest : string) : bool :=
  match rest with
  | EmptyString => true
  | String c _ =>
      negb (is_digit c || Ascii.eqb c "." || Ascii.eqb c "e" || Ascii.eqb c "E")
  end.

(** An integer literal without sign: digits, no leading zero. *)
Definition parse_unsigned (s : string) : option (Z * string) :=
  let '(lit, rest) := span_digits s in
  if ends_number rest then
    match NilZero.uint_of_string lit with
    | Some u =>
        if Decimal.uint_eq_dec (Decimal.unorm u) u then Some (Z.of_uint u, rest)
        else None
    | None => None
    end
  else None.

Definition parse_number (s : string) : option (json * string) :=
  match s with
  | String c s' =>
      match parse_unsigned (if Ascii.eqb c "-" then s' else s) with
      | Some (n, rest) => Some (JNum (if Ascii.eqb c "-" then - n else n), rest)
      | None => None
      end
  | EmptyString => None
  end.

Fixpoint strip_prefix (w s : string) : option string :=
  match w with
  | EmptyString => Some s
  | String a w' =>
      match s with
      | String b s' => if Ascii.eqb a b then strip_prefix w' s' else None
      | EmptyString => None
      end
  end.

Definition keyword (w : string) (v : json) (s : string) : option (json * string) :=
  match strip_prefix w s with
  | Some rest => Some (v, rest)
  | None => None
  end.

(** Whether [s] starts with the character [c]. *)
Definition starts_with (c : ascii) (s : string) : bool :=
  match s with
  | String d _ => Ascii.eqb d c
  | EmptyString => false
  end.

Definition tail (s : string) : string :=
  match s with
  | String _ s' => s'
  | EmptyString => ""
  end.

Fixpoint parse_value (fuel : nat) (s : string) : option (json * string) :=
  match fuel with
  | O => None
  | S fuel' =>
      match skip_ws s with
      | EmptyString => None
      | String c s' =>
          if Ascii.eqb c "n" then keyword "null" JNull (String c s')
          else if Ascii.eqb c "t" then keyword "true" (JBool true) (String c s')
          else if Ascii.eqb c "f" then keyword "false" (JBool false) (String c s')
          else if Ascii.eqb c dq then
            match parse_chars s' with
            | Some (str, rest) => Some (JStr str, rest)
            | None => None
            end
          else if Ascii.eqb c "[" then
            if starts_with "]" (skip_ws s') then Some (JArr [], tail (skip_ws s'))
            else
              match parse_elements fuel' s' with
              | Some (items, rest) => Some (JArr items, rest)
              | None => None
              end
          else if Ascii.eqb c "{" then
            if starts_with "}" (skip_ws s') then Some (JObj [], tail (skip_ws s'))
            else
              match parse_members fuel' s' with
              | Some (fields, rest) => Some (JObj fields, rest)
              | None => None
              end
          else parse_number (String c s')
      end
  end
with parse_elements (fuel : nat) (s : string) : option (list json * string) :=
  match fuel with
  | O => None
  | S fuel' =>
      match parse_value fuel' s with
      | Some (v, rest) =>
          if starts_with "]" (skip_ws rest) then Some ([v], tail (skip_ws rest))
          else if starts_with "," (skip_ws rest) then
            match parse_elements fuel' (tail (skip_ws rest)) with
            | Some (vs, rest') => Some (v :: vs, rest')
            | None => None
            end
          else None
      | None => None
      end
  end
with parse_members (fuel : nat) (s : string) : option (list (string * json) * string) :=
  match fuel with
  | O => None
  | S fuel' =>
      if starts_with dq (skip_ws s) then
        match parse_chars (tail (skip_ws s)) with
        | Some (k, rest) =>
            if starts_with ":" (skip_ws rest) then
              match parse_value fuel' (tail (skip_ws rest)) with
              | Some (v, rest') =>
                  if starts_with "}" (skip_ws rest') then Some ([(k, v)], tail (skip_ws rest'))
                  else if starts_with "," (skip_ws rest') then
                    match parse_members fuel' (tail (skip_ws rest')) with
                    | Some (kvs, rest'') => Some ((k, v) :: kvs, rest'')
                    | None => None
                    end
                  else None
              | None => None
              end
            else None
        | None => None
        end
      else None
  end.

Definition parse (s : string) : option json :=
  match parse_value (S (String.length s)) s with
  | Some (v, rest) =>
      match skip_ws rest with
      | EmptyString => Some v
      | _ => None
      end
  | None => None
  end.

Definition codec : JSON_codec :=
  {| JSON_parse := parse; JSON_stringify := stringify |}.

(** The characters a JSON text can start with. *)
Definition value_start (c : ascii) : bool :=
  is_digit c || Ascii.eqb c "-" || Ascii.eqb c "n" || Ascii.eqb c "t"
  || Ascii.eqb c "f" || Ascii.eqb c dq || Ascii.eqb c "[" || Ascii.eqb c "{".

(** The number of constructors and list cells of a value: the depth of
    recursion [parse_value] needs for its text. *)
Definition size_elements (size : json -> nat) : list json -> nat :=
  fix go (l : list json) : nat :=
    match l with
    | [] => 0
    | x :: rest => S (size x + go rest)
    end.

Definition size_members (size : json -> nat) : list (string * json) -> nat :=
  fix go (l : list (string * json)) : nat :=
    match l with
    | [] => 0
    | kv :: rest => S (size (snd kv) + go rest)
    end.

Fixpoint size (v : json) : nat :=
  match v with
  | JArr items => S (size_elements size items)
  | JObj fields => S (size_members size fields)
  | _ => 1
  end.

End RefJSON.

Import JS.

(** ** [src/js/api.js] *)
Module ApiJs.
Section api.
Context `{JSON_codec}.

Definition API_BASE_URL : string := "https://workbackend-egr6.onrender.com".

(** *** Token helpers *)
Definition getToken : M (option string) := getItem "auth_token".

(** [localStorage.setItem] converts its argument with ToString. *)
Definition setToken (token : json) : M unit :=
  s <- lift (ToString token) ;; setItem "auth_token" s.

Definition removeToken : M unit := removeItem "auth_token".

Definition setCurrentUser (user : json) : M unit :=
  setItem "current_user" (JSON_stringify user).

Definition removeCurrentUser : M unit := removeItem "current_user".

(** [contentType && contentType.includes('application/json')] *)
Definition declares_json (contentType : option string) : bool :=
  truthy_item contentType && includes (default "" contentType) "application/json".

(** [data.message || data.error || `HTTP error! status: ${response.status}`] *)
Definition error_message (data : json) (code : Z) : M json :=
  m <- lift (get_prop data "message") ;;
  or_else m
    (e <- lift (get_prop data "error") ;;
     or_else e (ret (JStr ("HTTP error! status: " +:+ string_of_Z code)))).

(** The headers [request] sends: JSON content type, then the caller's
    headers over it, then the bearer token over both. *)
Definition request_headers (token : option string) (options : Options) : gmap string string :=
  let headers := opt_headers options ∪ {[ "Content-Type" := "application/json" ]} in
  if truthy_item token
  then <[ "Authorization" := "Bearer " +:+ default "" token ]> headers
  else headers.

(** The 401 branch: purge the session, and leave for the login page
    unless the path is one of the two named ones. *)
Definition on_unauthorized : M unit :=
  removeToken ;;;
  removeCurrentUser ;;;
  p <- location_pathname ;;
  if negb (String.eqb p "/login.html") && negb (String.eqb p "/register.html")
  then set_location_href "/pages/login.html"
  else ret tt.

(** *** Main request handler *)
Definition request (endpoint : string) (options : Options) : M json :=
  let url := API_BASE_URL +:+ endpoint in
  token <- getToken ;;
  let headers := request_headers token options in
  try_catch
    (response <- fetch {| url := url; method := opt_method options;
                          headers := headers; body := opt_body options |} ;;
     let contentType := content_type response in
     data <- (if declares_json contentType
              then response_json response
              else (t <- response_text response ;; ret (JObj [("message", JStr t)]))) ;;
     if negb (ok response) then
       (if (status response =? 401)%Z then on_unauthorized else ret tt) ;;;
       v <- error_message data (status response) ;;
       e <- new_Error v ;;
       throw e
     else ret data)
    (fun error =>
       console_error "API request failed:" error ;;;
       throw error).

(** *** Authentication APIs *)
Definition POST (payload : json) : Options :=
  {| opt_method := Some "POST"; opt_headers := ∅;
     opt_body := Some (JSON_stringify payload) |}.

Definition GET : Options :=
  {| opt_method := Some "GET"; opt_headers := ∅; opt_body := None |}.

(** The shared tail of [auth.register] and [auth.login]:
    [if (response.token) { setToken(response.token);
       if (response.user) setCurrentUser(response.user); } return response;] *)
Definition store_session (response : json) : M json :=
  token <- lift (get_prop response "token") ;;
  (if truthy token then
     setToken (default JNull token) ;;;
     user <- lift (get_prop response "user") ;;
     if truthy user then setCurrentUser (default JNull user) else ret tt
   else ret tt) ;;;
  ret response.

Definition register (userData : json) : M json :=
  response <- request "/api/auth/register" (POST userData) ;;
  store_session response.

Definition login (credentials : json) : M json :=
  response <- request "/api/auth/login" (POST credentials) ;;
  store_session response.

Definition getProfile : M json :=
  response <- request "/api/auth/me" GET ;;
  u <- lift (get_prop response "user") ;;
  (if truthy u || truthy (Some response)
   then setCurrentUser (if truthy u then default JNull u else response)
   else ret tt) ;;;
  ret response.

Definition logout : M unit :=
  removeToken ;;;
  removeCurrentUser ;;;
  set_location_href "/pages/login.html".

End api.
End ApiJs.

(** ** [src/js/auth-guard.js] *)
Module AuthGuard.

Definition publicPages : list string :=
  ["/login.html"; "/register.html"; "/index.html"; "/"].

(** [publicPages.some(page => currentPath.endsWith(page) || currentPath === page)] *)
Definition isPublicPage (currentPath : string) : bool :=
  existsb (fun page => endsWith currentPath page || String.eqb currentPath page)
          publicPages.

(** The guard, an immediately invoked function. *)
Definition guard : M unit :=
  token <- getItem "token" ;;
  currentPath <- location_pathname ;;
  let isPublicPage := isPublicPage currentPath in
  if negb (truthy_item token) && negb isPublicPage then
    set_location_href "/pages/login.html" ;;;
    throw (Error "Authentication required")
  else
    console_log "Authentication verified".

(** One script element that holds the guard and then [rest]: an exception
    that leaves the guard ends that element. [auth-guard.js] itself has
    nothing after the guard; what a page loads in its other script
    elements is not part of [script] (see [Page.run_scripts]). *)
Definition script {A} (rest : M A) : M A := guard ;;; rest.

End AuthGuard.

(** ** The raw-token revision of [api.js] with [requireAuth] *)
Module ApiRaw.
Section api.
Context `{JSON_codec}.

Definition API_BASE : string := "https://workbackend-egr6.onrender.com".

Definition getToken : M (option string) := getItem "token".

Definition setToken (token : json) : M unit :=
  s <- lift (ToString token) ;; setItem "token" s.

Definition clearToken : M unit := removeItem "token".

Definition publicPages : list string :=
  ["/login.html"; "/register.html"; "/index.html"; "/"].

Definition requireAuth : M bool :=
  token <- getToken ;;
  currentPath <- location_pathname ;;
  let isPublicPage := existsb (fun page => endsWith currentPath page) publicPages in
  if negb (truthy_item token) && negb isPublicPage then
    set_location_href "/pages/login.html" ;;;
    ret false
  else ret true.

Definition request_headers (token : option string) (options : Options) : gmap string string :=
  let headers := opt_headers options ∪ {[ "Content-Type" := "application/json" ]} in
  if truthy_item token
  then <[ "Authorization" := default "" token ]> headers
  else headers.

(** [data.msg || data.message || "API Error"] *)
Definition error_message (data : json) : M json :=
  m <- lift (get_prop data "msg") ;;
  or_else m
    (e <- lift (get_prop data "message") ;;
     or_else e (ret (JStr "API Error"))).

Definition request (endpoint : string) (options : Options) : M json :=
  token <- getToken ;;
  let headers := request_headers token options in
  res <- fetch {| url := API_BASE +:+ endpoint; method := opt_method options;
                  headers := headers; body := opt_body options |} ;;
  data <- response_json res ;;
  if negb (ok res) then
    (if (status res =? 401)%Z then
       clearToken ;;; set_location_href "/pages/login.html"
     else ret tt) ;;;
    v <- error_message data ;;
    e <- new_Error v ;;
    throw e
  else ret data.

Definition POST (payload : json) : Options :=
  {| opt_method := Some "POST"; opt_headers := ∅;
     opt_body := Some (JSON_stringify payload) |}.

Definition store_token (res : json) : M json :=
  token <- lift (get_prop res "token") ;;
  (if truthy token then setToken (default JNull token) else ret tt) ;;;
  ret res.

Definition register (payload : json) : M json :=
  res <- request "/api/auth/register" (POST payload) ;;
  store_token res.

Definition login (payload : json) : M json :=
  res <- request "/api/auth/login" (POST payload) ;;
  store_token res.

Definition getProfile : M json := request "/api/auth/me" no_options.

Definition logout : M unit :=
  clearToken ;;;
  set_location_href "/pages/login.html".

End api.
End ApiRaw.

(** ** The function-per-endpoint revision of [api.js] *)
Module ApiFlat.
Section api.
Context `{JSON_codec}.

Definition getToken : M (option string) := getItem "token".

Definition setToken (token : json) : M unit :=
  s <- lift (ToString token) ;; setItem "token" s.

Definition clearToken : M unit := removeItem "token".

(** [data.msg || "API Error"] *)
Definition error_message (data : json) : M json :=
  m <- lift (get_prop data "msg") ;;
  or_else m (ret (JStr "API Error")).

Definition request (endpoint : string) (options : Options) : M json :=
  token <- getToken ;;
  let headers := ApiRaw.request_headers token options in
  res <- fetch {| url := ApiRaw.API_BASE +:+ endpoint; method := opt_method options;
                  headers := headers; body := opt_body options |} ;;
  data <- response_json res ;;
  if negb (ok res) then
    (if (status res =? 401)%Z then
       clearToken ;;; set_location_href "/pages/login.html"
     else ret tt) ;;;
    v <- error_message data ;;
    e <- new_Error v ;;
    throw e
  else ret data.

(** [registerUser] hands back what [request] resolves to; only
    [loginUser] stores the token. *)
Definition registerUser (payload : json) : M json :=
  request "/api/auth/register" (ApiRaw.POST payload).

Definition loginUser (payload : json) : M json :=
  res <- request "/api/auth/login" (ApiRaw.POST payload) ;;
  token <- lift (get_prop res "token") ;;
  (if truthy token then setToken (default JNull token) else ret tt) ;;;
  ret res.

(** [getMe]: [request("/api/auth/me")], with the default [options = {}]. *)
Definition getMe : M json := request "/api/auth/me" no_options.

Definition logout : M unit :=
  clearToken ;;;
  set_location_href "/pages/login.html".

End api.
End ApiFlat.

(** ** Vocabulary for the statements *)
Module Spec.
Import ApiJs.
Section vocabulary.
Context `{JSON_codec}.

(** The request [request endpoint options] hands to [fetch] in state [st]. *)
Definition outgoing (st : State) (endpoint : string) (options : Options) : Request :=
  {| url := API_BASE_URL +:+ endpoint;
     method := opt_method options;
     headers := request_headers (localStorage st !! "auth_token") options;
     body := opt_body options |}.

(** The network resolves that call with [resp]. *)
Definition answers (env : Env) (st : State) (endpoint : string) (options : Options)
    (resp : Response) : Prop :=
  server env (events st) (outgoing st endpoint options) = inr resp.

(** The state once [fetch] has been called. *)
Definition sent (st : State) (endpoint : string) (options : Options) : State :=
  log (EFetch (outgoing st endpoint options)) st.

(** What [request] binds to [data] when the body can be read: the parsed
    JSON for a JSON content type, the wrapped text otherwise. *)
Definition body_data (resp : Response) : option json :=
  if declares_json (content_type resp)
  then JSON_parse (text resp)
  else Some (JObj [("message", JStr (text resp))]).

(** The state after the 401 branch of [request]. *)
Definition purged (env : Env) (st : State) : State :=
  let st' := {| localStorage := delete "current_user" (delete "auth_token" (localStorage st));
                events := events st |} in
  if negb (String.eqb (pathname env) "/login.html")
     && negb (String.eqb (pathname env) "/register.html")
  then log (ENavigate "/pages/login.html") st'
  else st'.

(** The two operations that open a session. *)
Inductive auth_op : Type := Login | Register.

Definition run_auth (op : auth_op) : json -> M json :=
  match op with Login => login | Register => register end.

Definition auth_endpoint (op : auth_op) : string :=
  match op with Login => "/api/auth/login" | Register => "/api/auth/register" end.

End vocabulary.

(** The two outcomes of the guard. *)
Definition blocked (st : State) : State * (exn + unit) :=
  (log (ENavigate "/pages/login.html") st, inl (Error "Authentication required")).

Definition passed (st : State) : State * (exn + unit) :=
  (log (EConsoleLog "Authentication verified") st, inr tt).

(** The operation rejects (throws). *)
Definition rejected {A} (r : exn + A) : Prop := exists e, r = inl e.

(** Neither the token nor the cached profile is stored. *)
Definition no_session (st : State) : Prop :=
  localStorage st !! "auth_token" = None /\ localStorage st !! "current_user" = None.

(** The response declares a JSON content type: it has a [content-type]
    header, and [application/json] occurs in its value. *)
Definition json_content_type (resp : Response) : Prop :=
  exists ct pre post,
    content_type resp = Some ct /\ ct = pre +:+ "application/json" +:+ post.

(** The message candidates of a failure are tried in order: the first
    truthy one is taken, and the fallback text when none is. *)
Fixpoint first_truthy (candidates : list value) (fallback : string) : json :=
  match candidates with
  | [] => JStr fallback
  | v :: rest => if truthy v then default JNull v else first_truthy rest fallback
  end.

(** What [throw new Error(v)] raises: an [Error] whose message is [v] as
    a string, or the [TypeError] of a [v] that has no string form. *)
Definition thrown (v : json) : exn :=
  match ToString v with
  | inr s => Error s
  | inl e => e
  end.

End Spec.

(** ** Sample inputs *)
Module Samples.
Import RefJSON.

Definition logged_in : State :=
  {| localStorage := <[ "auth_token" := "t0k3n" ]> (<[ "current_user" := "{}" ]> ∅);
     events := [] |}.

Definition logged_out : State := {| localStorage := ∅; events := [] |}.

(** A page at path [p] whose every request is answered by [r]. *)
Definition page (p : string) (r : Response) : Env :=
  {| pathname := p; server := fun _ _ => inr r |}.

(** A page whose server sends back the body it receives, as JSON. *)
Definition echo_page (p : string) : Env :=
  {| pathname := p;
     server := fun _ req =>
       inr {| status := 200; content_type := Some "application/json";
              text := default "" (body req) |} |}.

(** A page without network. *)
Definition offline_page (p : string) : Env :=
  {| pathname := p; server := fun _ _ => inl (TypeError "Failed to fetch") |}.

Definition json_response (code : Z) (v : json) : Response :=
  {| status := code; content_type := Some "application/json; charset=utf-8";
     text := stringify v |}.

Definition text_response (code : Z) (t : string) : Response :=
  {| status := code; content_type := Some "text/html"; text := t |}.

(** A 401 that announces JSON and carries an empty body. *)
Definition bare_401 : Response :=
  {| status := 401; content_type := Some "application/json"; text := "" |}.

Definition token_expired : Response :=
  json_response 401 (JObj [("message", JStr "Token expired")]).

(** A validation failure whose [message] is present and empty. *)
Definition blank_message : json :=
  JObj [("message", JStr ""); ("error", JStr "Title is required")].

Definition task : json :=
  JObj [("title", JStr "Fix bug"); ("description", JStr "Found in homepage");
        ("coins", JNum 5)].

Definition created_task : json :=
  JObj [("_id", JStr "t1"); ("status", JStr "open")].

Definition credentials : json :=
  JObj [("email", JStr "a@b.c"); ("password", JStr "secret")].

Definition session : json :=
  JObj [("token", JStr "abc123"); ("user", JObj [("name", JStr "Ann")])].

End Samples.

(** ** The rest of [src/js/api.js] *)
Module ApiJsRest.
Section api.
Context `{JSON_codec}.

(** [getCurrentUser]: [userStr ? JSON.parse(userStr) : null] *)
Definition getCurrentUser : M json :=
  userStr <- getItem "current_user" ;;
  if truthy_item userStr then
    match JSON_parse (default "" userStr) with
    | Some user => ret user
    | None => throw (SyntaxError "Unexpected token in JSON")
    end
  else ret JNull.

End api.
End ApiJsRest.

(** ** [src/js/utils.js]

    Strings are sequences of code units; [length] arguments are the
    integral numbers. *)
Module Utils.

(** [!!localStorage.getItem('auth_token')] *)
Definition isAuthenticated : M bool :=
  token <- getItem "auth_token" ;; ret (truthy_item token).

Definition requireAuth : M unit :=
  authenticated <- isAuthenticated ;;
  if negb authenticated then set_location_href "/pages/login.html" else ret tt.

(** [truncateText(text, length = 100)]; [substring] takes a negative end
    for zero. *)
Definition truncateText (text : string) (length : Z) : string :=
  if String.eqb text "" || (Z.of_nat (String.length text) <=? length)%Z then text
  else substring 0 (Z.to_nat length) text +:+ "...".

(** [String.prototype.split] with a one-character separator: the pieces
    between the separators, the empty ones included; never an empty list. *)
Fixpoint split (sep : ascii) (s : string) : list string :=
  match s with
  | EmptyString => [""]
  | String c s' =>
      if Ascii.eqb c sep then "" :: split sep s'
      else match split sep s' with
           | piece :: pieces => String c piece :: pieces
           | [] => [String c ""]
           end
  end.

(** [Array.prototype.pop] for its result: the last piece. *)
Definition pop (pieces : list string) : string := List.last pieces "".

(** [String.prototype.replace] with a string pattern and the empty
    replacement: the first occurrence goes. *)
Fixpoint remove_first (pattern s : string) : string :=
  if String.prefix pattern s
  then substring (String.length pattern) (String.length s - String.length pattern) s
  else match s with
       | EmptyString => ""
       | String c s' => String c (remove_first pattern s')
       end.

(** *** [formatNumber]

    [num.toString().replace(/\B(?=(\d{3})+(?!\d))/g, ',')], piece by
    piece. *)

(** [\d] *)
Definition is_digit (c : ascii) : bool :=
  let n := nat_of_ascii c in (48 <=? n) && (n <=? 57).

(** [\w], for the character next to a position; no character there
    counts as a non-word character. *)
Definition is_word (c : option ascii) : bool :=
  match c with
  | None => false
  | Some c =>
      let n := nat_of_ascii c in
      is_digit c || ((65 <=? n) && (n <=? 90)) || ((97 <=? n) && (n <=? 122)) || (n =? 95)
  end.

Definition head (s : string) : option ascii :=
  match s with
  | EmptyString => None
  | String c _ => Some c
  end.

(** [(\d{3})+(?!\d)] matched at the start of [s]: three digits, and then
    either no digit or the same again. *)
Fixpoint triples (s : string) : bool :=
  match s with
  | String a (String b (String c rest)) =>
      is_digit a && is_digit b && is_digit c
      && (negb (match head rest with
                | Some d => is_digit d
                | None => false
                end)
          || triples rest)
  | _ => false
  end.

(** The global replace: at every position, from left to right, a comma
    goes in where the position is not a word boundary ([\B]: the
    characters on its two sides are both word characters or both not) and
    the lookahead matches. [prev] is the character before the position. *)
Fixpoint commas (prev : option ascii) (s : string) : string :=
  let here :=
    if Bool.eqb (is_word prev) (is_word (head s)) && triples s then "," else "" in
  match s with
  | EmptyString => here
  | String c s' => here +:+ String c (commas (Some c) s')
  end.

(** [num.toString()] of an integral number. For a safe integer, of
    magnitude below 2^53, these are its decimal digits. Beyond that
    [toString] prints the shortest digits that identify the double,
    padded with zeros, and from 10^21 on an exponent: those are not
    computed here, and the answer is [None]. *)
Definition Number_toString (n : Z) : option string :=
  if (Z.abs n <? 2 ^ 53)%Z then Some (string_of_Z n) else None.

(** [num] is [None] for [undefined] and [null]. The result is [None]
    where [Number_toString] is. *)
Definition formatNumber (num : option Z) : option string :=
  match num with
  | None => Some "0"
  | Some n => option_map (commas None) (Number_toString n)
  end.

(** [getCurrentPage], on the path it reads from [window.location]. *)
Definition currentPage (path : string) : string :=
  let page := pop (split "/" path) in
  let name := remove_first ".html" page in
  if String.eqb name "" then "dashboard" else name.

Definition getCurrentPage : M string :=
  path <- location_pathname ;; ret (currentPage path).

End Utils.

(** ** The checks at the top of the page scripts

    The login and registration scripts start by sending a visitor who has
    a token to the dashboard; the dashboard script starts by sending a
    visitor without one to the login page. Neither stops the script. *)
Module Pages.

Definition login_entry : M unit :=
  token <- getItem "token" ;;
  if truthy_item token then set_location_href "dashboard.html" else ret tt.

Definition dashboard_entry : M unit :=
  token <- getItem "token" ;;
  if negb (truthy_item token) then set_location_href "login.html" else ret tt.

End Pages.

(** ** A page and its script elements

    [AUTHENTICATION.md] sets a protected page up with [auth-guard.js] as
    its first script element and the page's own script as the next one.
    A navigation that a script asks for does not stop the scripts of the
    page (see [set_location_href]); when the browser leaves the page is a
    matter of timing, which is not modelled. *)
Module Page.

(** One script element runs to its end, or to an exception that nothing
    catches: the browser reports that one on the console, and the element
    is over. *)
Definition run_script (script : M unit) (env : Env) (st : State) : State :=
  match script env st with
  | (st', inl e) => log (EConsoleError "Uncaught" e) st'
  | (st', inr _) => st'
  end.

(** The script elements of a page run in document order, each in the
    state its predecessors leave, whether they ended normally or not. *)
Definition run_scripts (scripts : list (M unit)) (env : Env) (st : State) : State :=
  fold_left (fun st' script => run_script script env st') scripts st.

(** The dashboard page: the guard, then the dashboard script, taken as
    far as the token check at its top. *)
Definition dashboard : list (M unit) := [AuthGuard.guard; Pages.dashboard_entry].

End Page.

(** ** Vocabulary for the raw-token revisions *)
Module RawSpec.
Section vocabulary.
Context `{JSON_codec}.

(** The request the raw-token [request] hands to [fetch] in state [st]. *)
Definition raw_outgoing (st : State) (endpoint : string) (options : Options) : Request :=
  {| url := ApiRaw.API_BASE +:+ endpoint;
     method := opt_method options;
     headers := ApiRaw.request_headers (localStorage st !! "token") options;
     body := opt_body options |}.

Definition raw_answers (env : Env) (st : State) (endpoint : string) (options : Options)
    (resp : Response) : Prop :=
  server env (events st) (raw_outgoing st endpoint options) = inr resp.

Definition raw_sent (st : State) (endpoint : string) (options : Options) : State :=
  log (EFetch (raw_outgoing st endpoint options)) st.

(** The state after the 401 branch of the raw-token [request]. *)
Definition raw_purged (st : State) : State :=
  log (ENavigate "/pages/login.html")
      {| localStorage := delete "token" (localStorage st); events := events st |}.

End vocabulary.
End RawSpec.

(** ** Vocabulary for paths *)
Module PathSpec.

(** Whether the character [c] occurs in [s]. *)
Fixpoint has_char (c : ascii) (s : string) : bool :=
  match s with
  | EmptyString => false
  | String d s' => Ascii.eqb d c || has_char c s'
  end.

(** The file names the guard's allow-list lets through, and the empty
    name of a directory path. *)
Definition public_names : list string :=
  ["login.html"; "register.html"; "index.html"; ""].

End PathSpec.

(** ** Vocabulary for [formatNumber] *)
Module FormatSpec.

Fixpoint all_digits (s : string) : bool :=
  match s with
  | EmptyString => true
  | String c rest => Utils.is_digit c && all_digits rest
  end.

(** Digits grouped in threes from the right: after each digit comes a
    comma when the digits still to come are a positive multiple of
    three. *)
Fixpoint group_thousands (digits : string) : string :=
  match digits with
  | EmptyString => ""
  | String c rest =>
      String c ((if (0 <? String.length rest) && (String.length rest mod 3 =? 0)
                 then "," else "") +:+ group_thousands rest)
  end.

End FormatSpec.

(** ** More sample inputs *)
Module MoreSamples.
Import RefJSON Samples.

(** The state of a visitor logged in through the raw-token revision. *)
Definition raw_logged_in : State :=
  {| localStorage := <[ "token" := "abc123" ]> ∅; events := [] |}.

Definition ann : json := JObj [("name", JStr "Ann")].

Definition profile : json := JObj [("user", ann)].

Definition email_taken : json := JObj [("msg", JStr "Email already registered")].

Definition unavailable : Response := text_response 503 "Service Unavailable".

(** A 401 with a plain-text body. *)
Definition unauthorized_text : Response :=
  {| status := 401; content_type := Some "text/plain; charset=utf-8";
     text := "Unauthorized" |}.

(** A failure body with both [msg] and [message]. *)
Definition two_messages : json :=
  JObj [("message", JStr "Validation failed"); ("msg", JStr "Title is required")].

End MoreSamples.

(** ** The string primitives do what their names say *)
Module StringFacts.

Lemma app_cons (c : ascii) (a b : string) : String c a +:+ b = String c (a +:+ b).
Proof. reflexivity. Qed.

Lemma app_empty (b : string) : "" +:+ b = b.
Proof. reflexivity. Qed.

Lemma length_app (a b : string) :
  String.length (a +:+ b) = String.length a + String.length b.
Proof.
  induction a as [|c a IH]; [reflexivity|].
  rewrite app_cons. cbn [String.length]. rewrite IH. reflexivity.
Qed.

Lemma substring_all (s : string) : substring 0 (String.length s) s = s.
Proof. induction s as [|c s IH]; cbn; [reflexivity|]. rewrite IH. reflexivity. Qed.

Lemma substring_skip (pre suf : string) :
  substring (String.length pre) (String.length suf) (pre +:+ suf) = suf.
Proof.
  induction pre as [|c pre IH]; [apply substring_all|].
  rewrite app_cons. cbn [String.length substring]. exact IH.
Qed.

Lemma substring_split (k : nat) : forall s : string,
  k <= String.length s ->
  substring 0 k s +:+ substring k (String.length s - k) s = s.
Proof.
  induction k as [|k IH]; intros s Hk.
  - rewrite Nat.sub_0_r, substring_all. destruct s; reflexivity.
  - destruct s as [|c s]; cbn in Hk; [lia|].
    cbn [String.length substring Nat.sub]. rewrite app_cons, IH by lia. reflexivity.
Qed.

(** [endsWith s suffix] holds exactly when [s] is some text followed by
    [suffix]. *)
Lemma endsWith_spec (s suffix : string) :
  endsWith s suffix = true <-> exists pre, s = pre +:+ suffix.
Proof.
  unfold endsWith. split.
  - intros Hends. apply andb_true_iff in Hends as [Hle Heq].
    apply Nat.leb_le in Hle. apply String.eqb_eq in Heq.
    exists (substring 0 (String.length s - String.length suffix) s).
    assert (E := substring_split (String.length s - String.length suffix) s
                   (Nat.le_sub_l _ _)).
    replace (String.length s - (String.length s - String.length suffix))
      with (String.length suffix) in E by lia.
    rewrite Heq in E. symmetry. exact E.
  - intros [pre ->]. rewrite length_app. apply andb_true_iff. split.
    + apply Nat.leb_le. lia.
    + replace (String.length pre + String.length suffix - String.length suffix)
        with (String.length pre) by lia.
      rewrite substring_skip. apply String.eqb_refl.
Qed.

Lemma endsWith_refl (s : string) : endsWith s s = true.
Proof. apply endsWith_spec. exists "". reflexivity. Qed.

Lemma prefix_app (sub rest : string) : String.prefix sub (sub +:+ rest) = true.
Proof.
  induction sub as [|c sub IH]; [destruct rest; reflexivity|].
  rewrite app_cons. cbn [String.prefix].
  destruct (ascii_dec c c); [exact IH|contradiction].
Qed.

Lemma prefix_inv (sub : string) : forall s,
  String.prefix sub s = true -> exists rest, s = sub +:+ rest.
Proof.
  induction sub as [|c sub IH]; intros s Hp.
  - exists s. reflexivity.
  - destruct s as [|d s]; cbn in Hp; [discriminate|].
    destruct (ascii_dec c d) as [->|]; [|discriminate].
    destruct (IH s Hp) as [rest ->]. exists rest. reflexivity.
Qed.

(** [includes s sub] holds exactly when [sub] occurs somewhere in [s]. *)
Lemma includes_spec (s sub : string) :
  includes s sub = true <-> exists pre post, s = pre +:+ sub +:+ post.
Proof.
  split.
  - induction s as [|c s IH]; cbn [includes].
    + destruct (String.prefix sub "") eqn:Hp; [|discriminate]. intros _.
      destruct (prefix_inv _ _ Hp) as [rest E]. exists "", rest. exact E.
    + destruct (String.prefix sub (String c s)) eqn:Hp.
      * intros _. destruct (prefix_inv _ _ Hp) as [rest E]. exists "", rest. exact E.
      * intros Hin. destruct (IH Hin) as (pre & post & ->).
        exists (String c pre), post. reflexivity.
  - intros (pre & post & ->). induction pre as [|c pre IH].
    + rewrite app_empty.
      assert (Hp := prefix_app sub post).
      destruct (sub +:+ post); cbn [includes]; rewrite Hp; reflexivity.
    + rewrite app_cons. cbn [includes]. rewrite IH.
      destruct (String.prefix sub _); reflexivity.
Qed.

End StringFacts.

(** ** The reference codec parses what it prints *)
Module RefJSONFacts.
Import RefJSON StringFacts.

Lemma app_assoc (a b c : string) : (a +:+ b) +:+ c = a +:+ (b +:+ c).
Proof.
  induction a as [|x a IH]; [reflexivity|].
  rewrite !app_cons, IH. reflexivity.
Qed.

(** *** String literals *)
Lemma parse_chars_escape_char (c : ascii) (tl : string) :
  parse_chars (escape_char c +:+ tl) = cons_char c (parse_chars tl).
Proof. destruct c as [[] [] [] [] [] [] [] []]; reflexivity. Qed.

Lemma parse_chars_escape (s tl : string) :
  parse_chars (escape s +:+ String dq tl) = Some (s, tl).
Proof.
  induction s as [|c s IH]; [reflexivity|].
  cbn [escape]. rewrite app_assoc, parse_chars_escape_char, IH. reflexivity.
Qed.

Lemma quoted_app (s tl : string) :
  quoted s +:+ tl = String dq (escape s +:+ String dq tl).
Proof. unfold quoted. rewrite app_cons, app_assoc. reflexivity. Qed.

(** *** Integer literals *)
Lemma span_digits_uint (u : Decimal.uint) (rest : string) :
  ends_number rest = true ->
  span_digits (NilEmpty.string_of_uint u +:+ rest) = (NilEmpty.string_of_uint u, rest).
Proof.
  intros Hrest. induction u as [|u IH|u IH|u IH|u IH|u IH|u IH|u IH|u IH|u IH|u IH];
    cbn [NilEmpty.string_of_uint]; rewrite ?app_cons; cbn [span_digits];
    try (rewrite IH; reflexivity).
  rewrite app_empty. destruct rest as [|c rest]; [reflexivity|].
  cbn [span_digits]. cbn [ends_number] in Hrest.
  destruct (is_digit c); [discriminate Hrest|reflexivity].
Qed.

Lemma parse_unsigned_uint (u : Decimal.uint) (rest : string) :
  u <> Decimal.Nil ->
  Decimal.unorm u = u ->
  ends_number rest = true ->
  parse_unsigned (NilZero.string_of_uint u +:+ rest) = Some (Z.of_uint u, rest).
Proof.
  intros Hnil Hnorm Hrest. unfold parse_unsigned.
  assert (Hs : NilZero.string_of_uint u = NilEmpty.string_of_uint u)
    by (destruct u; [contradiction|..]; reflexivity).
  rewrite Hs, (span_digits_uint u rest Hrest), Hrest.
  rewrite <- Hs, NilZero.usu by exact Hnil.
  destruct (Decimal.uint_eq_dec (Decimal.unorm u) u); [reflexivity|contradiction].
Qed.

Lemma to_uint_normal (p : positive) :
  Decimal.unorm (Pos.to_uint p) = Pos.to_uint p.
Proof.
  rewrite <- (DecimalPos.Unsigned.to_of (Pos.to_uint p)).
  rewrite DecimalPos.Unsigned.of_to. reflexivity.
Qed.

Lemma uint_head_digit (u : Decimal.uint) (rest : string) :
  u <> Decimal.Nil ->
  exists c s', NilZero.string_of_uint u +:+ rest = String c s' /\ is_digit c = true.
Proof.
  intros Hnil. destruct u; [contradiction|..];
    (eexists; eexists; split; [reflexivity|reflexivity]).
Qed.

Lemma parse_number_digits (c : ascii) (s' : string) :
  is_digit c = true ->
  parse_number (String c s') =
  match parse_unsigned (String c s') with
  | Some (n, rest) => Some (JNum n, rest)
  | None => None
  end.
Proof.
  intros Hc. unfold parse_number.
  destruct c as [[] [] [] [] [] [] [] []]; try discriminate Hc; reflexivity.
Qed.

Lemma parse_number_uint (u : Decimal.uint) (rest : string) :
  u <> Decimal.Nil ->
  Decimal.unorm u = u ->
  ends_number rest = true ->
  parse_number (NilZero.string_of_uint u +:+ rest) = Some (JNum (Z.of_uint u), rest).
Proof.
  intros Hnil Hnorm Hrest.
  destruct (uint_head_digit u rest Hnil) as (c & s' & Hhead & Hc).
  rewrite Hhead, (parse_number_digits c s' Hc), <- Hhead.
  rewrite parse_unsigned_uint by assumption. reflexivity.
Qed.

Lemma parse_number_Z (n : Z) (rest : string) :
  ends_number rest = true ->
  parse_number (string_of_Z n +:+ rest) = Some (JNum n, rest).
Proof.
  intros Hrest. unfold string_of_Z. destruct n as [|p|p]; cbn [Z.to_int NilZero.string_of_int].
  - rewrite parse_number_uint; [reflexivity|discriminate|reflexivity|exact Hrest].
  - rewrite parse_number_uint;
      [|apply DecimalPos.Unsigned.to_uint_nonnil|apply to_uint_normal|exact Hrest].
    unfold Z.of_uint. rewrite DecimalPos.Unsigned.of_to. reflexivity.
  - rewrite app_cons. unfold parse_number. cbn [Ascii.eqb Bool.eqb].
    rewrite parse_unsigned_uint;
      [|apply DecimalPos.Unsigned.to_uint_nonnil|apply to_uint_normal|exact Hrest].
    unfold Z.of_uint. rewrite DecimalPos.Unsigned.of_to. reflexivity.
Qed.

(** A number starts with a digit or a minus sign. *)
Lemma number_head (n : Z) (rest : string) :
  exists c s', string_of_Z n +:+ rest = String c s' /\
               (is_digit c || Ascii.eqb c "-") = true.
Proof.
  unfold string_of_Z. destruct n as [|p|p]; cbn [Z.to_int NilZero.string_of_int].
  - eexists; eexists; split; reflexivity.
  - destruct (uint_head_digit (Pos.to_uint p) rest (DecimalPos.Unsigned.to_uint_nonnil p))
      as (c & s' & Hhead & Hc).
    exists c, s'. split; [exact Hhead|]. rewrite Hc. reflexivity.
  - eexists; eexists; split; reflexivity.
Qed.

Lemma parse_value_number (fuel : nat) (c : ascii) (s' : string) :
  (is_digit c || Ascii.eqb c "-") = true ->
  parse_value (S fuel) (String c s') = parse_number (String c s').
Proof.
  intros Hc. destruct c as [[] [] [] [] [] [] [] []]; try discriminate Hc; reflexivity.
Qed.

(** *** Values *)
Lemma value_head (v : json) (tl : string) :
  exists c s', stringify v +:+ tl = String c s' /\ value_start c = true.
Proof.
  destruct v as [|[]|n|s|items|fields];
    try (eexists; eexists; split; reflexivity).
  destruct (number_head n tl) as (c & s' & Hhead & Hc).
  exists c, s'. split; [exact Hhead|].
  unfold value_start. rewrite <- !orb_assoc. rewrite orb_assoc, Hc. reflexivity.
Qed.

Lemma value_start_not_closing (c : ascii) (s' : string) :
  value_start c = true ->
  skip_ws (String c s') = String c s' /\ starts_with "]" (String c s') = false.
Proof.
  intros Hc. destruct c as [[] [] [] [] [] [] [] []]; try discriminate Hc;
    split; reflexivity.
Qed.

Lemma parse_value_S (fuel : nat) (s : string) :
  parse_value (S fuel) s =
  match skip_ws s with
  | EmptyString => None
  | String c s' =>
      if Ascii.eqb c "n" then keyword "null" JNull (String c s')
      else if Ascii.eqb c "t" then keyword "true" (JBool true) (String c s')
      else if Ascii.eqb c "f" then keyword "false" (JBool false) (String c s')
      else if Ascii.eqb c dq then
        match parse_chars s' with
        | Some (str, rest) => Some (JStr str, rest)
        | None => None
        end
      else if Ascii.eqb c "[" then
        if starts_with "]" (skip_ws s') then Some (JArr [], tail (skip_ws s'))
        else
          match parse_elements fuel s' with
          | Some (items, rest) => Some (JArr items, rest)
          | None => None
          end
      else if Ascii.eqb c "{" then
        if starts_with "}" (skip_ws s') then Some (JObj [], tail (skip_ws s'))
        else
          match parse_members fuel s' with
          | Some (fields, rest) => Some (JObj fields, rest)
          | None => None
          end
      else parse_number (String c s')
  end.
Proof. reflexivity. Qed.

Lemma parse_elements_S (fuel : nat) (s : string) :
  parse_elements (S fuel) s =
  match parse_value fuel s with
  | Some (v, rest) =>
      if starts_with "]" (skip_ws rest) then Some ([v], tail (skip_ws rest))
      else if starts_with "," (skip_ws rest) then
        match parse_elements fuel (tail (skip_ws rest)) with
        | Some (vs, rest') => Some (v :: vs, rest')
        | None => None
        end
      else None
  | None => None
  end.
Proof. reflexivity. Qed.

Lemma parse_members_S (fuel : nat) (s : string) :
  parse_members (S fuel) s =
  if starts_with dq (skip_ws s) then
    match parse_chars (tail (skip_ws s)) with
    | Some (k, rest) =>
        if starts_with ":" (skip_ws rest) then
          match parse_value fuel (tail (skip_ws rest)) with
          | Some (v, rest') =>
              if starts_with "}" (skip_ws rest') then Some ([(k, v)], tail (skip_ws rest'))
              else if starts_with "," (skip_ws rest') then
                match parse_members fuel (tail (skip_ws rest')) with
                | Some (kvs, rest'') => Some ((k, v) :: kvs, rest'')
                | None => None
                end
              else None
          | None => None
          end
        else None
    | None => None
    end
  else None.
Proof. reflexivity. Qed.

Lemma size_positive (v : json) : 1 <= size v.
Proof. destruct v; cbn; lia. Qed.

Lemma elements_head (x : json) (l : list json) (tl : string) :
  exists c s', elements stringify (x :: l) +:+ tl = String c s' /\ value_start c = true.
Proof.
  destruct l as [|y l].
  - apply value_head.
  - change (elements stringify (x :: y :: l))
      with (stringify x +:+ String "," (elements stringify (y :: l))).
    rewrite app_assoc. apply value_head.
Qed.

Lemma members_head (kv : string * json) (l : list (string * json)) (tl : string) :
  exists s', members stringify (kv :: l) +:+ tl = String dq s'.
Proof.
  destruct l as [|kv' l].
  - change (members stringify [kv])
      with (quoted (fst kv) +:+ String ":" (stringify (snd kv))).
    rewrite app_assoc, quoted_app. eexists. reflexivity.
  - change (members stringify (kv :: kv' :: l))
      with (quoted (fst kv) +:+ String ":" (stringify (snd kv)
              +:+ String "," (members stringify (kv' :: l)))).
    rewrite app_assoc, quoted_app. eexists. reflexivity.
Qed.

Lemma parse_value_string (fuel : nat) (s' : string) :
  parse_value (S fuel) (String dq s') =
  match parse_chars s' with
  | Some (str, rest) => Some (JStr str, rest)
  | None => None
  end.
Proof. reflexivity. Qed.

Lemma parse_value_array (fuel : nat) (c : ascii) (s' : string) :
  value_start c = true ->
  parse_value (S fuel) (String "[" (String c s')) =
  match parse_elements fuel (String c s') with
  | Some (items, rest) => Some (JArr items, rest)
  | None => None
  end.
Proof.
  intros Hc. destruct c as [[] [] [] [] [] [] [] []]; try discriminate Hc; reflexivity.
Qed.

Lemma parse_value_object (fuel : nat) (s' : string) :
  parse_value (S fuel) (String "{" (String dq s')) =
  match parse_members fuel (String dq s') with
  | Some (fields, rest) => Some (JObj fields, rest)
  | None => None
  end.
Proof. reflexivity. Qed.

(** With recursion depth to spare, the parser reads back a printed
    value, a printed element list up to its bracket, and a printed member
    list up to its brace. *)
Lemma round_trip_fuel (fuel : nat) :
  (forall v rest, size v <= fuel -> ends_number rest = true ->
     parse_value fuel (stringify v +:+ rest) = Some (v, rest)) /\
  (forall x items rest, size_elements size (x :: items) <= fuel ->
     parse_elements fuel (elements stringify (x :: items) +:+ String "]" rest)
     = Some (x :: items, rest)) /\
  (forall kv fields rest, size_members size (kv :: fields) <= fuel ->
     parse_members fuel (members stringify (kv :: fields) +:+ String "}" rest)
     = Some (kv :: fields, rest)).
Proof.
  induction fuel as [|fuel (IHv & IHe & IHm)].
  - split; [|split].
    + intros v rest Hsize. pose proof (size_positive v). lia.
    + intros x items rest Hsize. cbn in Hsize. lia.
    + intros kv fields rest Hsize. cbn in Hsize. lia.
  - split; [|split].
    + intros v rest Hsize Hrest. destruct v as [|[]|n|s|items|fields].
      * reflexivity.
      * reflexivity.
      * reflexivity.
      * cbn [stringify]. destruct (number_head n rest) as (c & s' & Hhead & Hc).
        rewrite Hhead, parse_value_number by exact Hc. rewrite <- Hhead.
        apply parse_number_Z. exact Hrest.
      * cbn [stringify]. rewrite quoted_app, parse_value_string, parse_chars_escape.
        reflexivity.
      * destruct items as [|x l]; [reflexivity|].
        assert (E : stringify (JArr (x :: l)) +:+ rest
                    = String "[" (elements stringify (x :: l) +:+ String "]" rest)).
        { cbn [stringify]. rewrite app_cons, app_assoc. reflexivity. }
        rewrite E.
        destruct (elements_head x l (String "]" rest)) as (c & s' & Hhead & Hc).
        rewrite Hhead, parse_value_array by exact Hc. rewrite <- Hhead.
        rewrite IHe; [reflexivity|]. cbn [size] in Hsize. lia.
      * destruct fields as [|kv l]; [reflexivity|].
        assert (E : stringify (JObj (kv :: l)) +:+ rest
                    = String "{" (members stringify (kv :: l) +:+ String "}" rest)).
        { cbn [stringify]. rewrite app_cons, app_assoc. reflexivity. }
        rewrite E.
        destruct (members_head kv l (String "}" rest)) as (s' & Hhead).
        rewrite Hhead, parse_value_object. rewrite <- Hhead.
        rewrite IHm; [reflexivity|]. cbn [size] in Hsize. lia.
    + intros x items rest Hsize. rewrite parse_elements_S.
      destruct items as [|y l].
      * change (elements stringify [x]) with (stringify x).
        rewrite IHv; [reflexivity| |reflexivity]. cbn in Hsize. lia.
      * change (elements stringify (x :: y :: l))
          with (stringify x +:+ String "," (elements stringify (y :: l))).
        rewrite app_assoc, app_cons.
        rewrite IHv; [| |reflexivity].
        -- change (skip_ws (String "," (elements stringify (y :: l) +:+ String "]" rest)))
             with (String "," (elements stringify (y :: l) +:+ String "]" rest)).
           cbn [starts_with tail].
           change (Ascii.eqb "," "]") with false. change (Ascii.eqb "," ",") with true.
           cbn iota. rewrite IHe; [reflexivity|].
           change (size_elements size (x :: y :: l))
             with (S (size x + size_elements size (y :: l))) in Hsize. lia.
        -- change (size_elements size (x :: y :: l))
             with (S (size x + size_elements size (y :: l))) in Hsize. lia.
    + intros [k v] fields rest Hsize. rewrite parse_members_S.
      destruct fields as [|kv' l].
      * change (members stringify [(k, v)])
          with (quoted k +:+ String ":" (stringify v)).
        rewrite app_assoc, quoted_app.
        change (skip_ws (String dq (escape k +:+ String dq (String ":" (stringify v) +:+ String "}" rest))))
          with (String dq (escape k +:+ String dq (String ":" (stringify v) +:+ String "}" rest))).
        cbn [starts_with tail]. change (Ascii.eqb dq dq) with true. cbn iota.
        rewrite parse_chars_escape, app_cons.
        change (skip_ws (String ":" (stringify v +:+ String "}" rest)))
          with (String ":" (stringify v +:+ String "}" rest)).
        cbn [starts_with tail]. change (Ascii.eqb ":" ":") with true. cbn iota.
        rewrite IHv; [reflexivity| |reflexivity]. cbn in Hsize. lia.
      * change (members stringify ((k, v) :: kv' :: l))
          with (quoted k +:+ String ":" (stringify v
                  +:+ String "," (members stringify (kv' :: l)))).
        rewrite app_assoc, quoted_app.
        change (skip_ws (String dq ?x)) with (String dq x).
        cbn [starts_with tail]. change (Ascii.eqb dq dq) with true. cbn iota.
        rewrite parse_chars_escape, app_cons, app_assoc, app_cons.
        change (skip_ws (String ":" ?x)) with (String ":" x).
        cbn [starts_with tail]. change (Ascii.eqb ":" ":") with true. cbn iota.
        rewrite IHv; [| |reflexivity].
        -- change (skip_ws (String "," ?x)) with (String "," x).
           cbn [starts_with tail].
           change (Ascii.eqb "," "}") with false. change (Ascii.eqb "," ",") with true.
           cbn iota. rewrite IHm; [reflexivity|].
           change (size_members size ((k, v) :: kv' :: l))
             with (S (size v + size_members size (kv' :: l))) in Hsize. lia.
        -- change (size_members size ((k, v) :: kv' :: l))
             with (S (size v + size_members size (kv' :: l))) in Hsize. lia.
Qed.

Lemma app_empty_r (s : string) : s +:+ "" = s.
Proof. induction s as [|c s IH]; [reflexivity|]. rewrite app_cons, IH. reflexivity. Qed.

(** A printed value is at least as long as the value is large. *)
Lemma size_le_length (n : nat) : forall v, size v <= n ->
  size v <= String.length (stringify v).
Proof.
  induction n as [|n IH]; intros v Hn.
  - pose proof (size_positive v). lia.
  - destruct v as [|[]|k|s|items|fields]; try (cbn; lia).
    + destruct (number_head k "") as (c & s' & Hhead & _).
      rewrite app_empty_r in Hhead. cbn [stringify size]. rewrite Hhead. cbn. lia.
    + cbn [size stringify String.length] in *. rewrite length_app. cbn [String.length].
      assert (Hl : forall l, size_elements size l <= n ->
                size_elements size l <= String.length (elements stringify l) + 1).
      { induction l as [|x l IHl]; intros Hsz; [cbn; lia|].
        change (size_elements size (x :: l)) with (S (size x + size_elements size l)) in *.
        assert (Hx : size x <= String.length (stringify x)) by (apply IH; lia).
        destruct l as [|y l].
        - cbn. lia.
        - change (elements stringify (x :: y :: l))
            with (stringify x +:+ String "," (elements stringify (y :: l))).
          rewrite length_app. cbn [String.length].
          assert (size_elements size (y :: l)
                  <= String.length (elements stringify (y :: l)) + 1) by (apply IHl; lia).
          lia. }
      specialize (Hl items). lia.
    + cbn [size stringify String.length] in *. rewrite length_app. cbn [String.length].
      assert (Hl : forall l, size_members size l <= n ->
                size_members size l <= String.length (members stringify l) + 1).
      { induction l as [|[key x] l IHl]; intros Hsz; [cbn; lia|].
        change (size_members size ((key, x) :: l))
          with (S (size x + size_members size l)) in *.
        assert (Hx : size x <= String.length (stringify x)) by (apply IH; lia).
        destruct l as [|kv l].
        - change (members stringify [(key, x)])
            with (quoted key +:+ String ":" (stringify x)).
          rewrite length_app. cbn. lia.
        - change (members stringify ((key, x) :: kv :: l))
            with (quoted key +:+ String ":" (stringify x
                    +:+ String "," (members stringify (kv :: l)))).
          rewrite length_app. cbn [String.length]. rewrite length_app. cbn [String.length].
          assert (size_members size (kv :: l)
                  <= String.length (members stringify (kv :: l)) + 1) by (apply IHl; lia).
          lia. }
      specialize (Hl fields). lia.
Qed.

(** The reference [JSON.parse] inverts the reference [JSON.stringify]. *)
Theorem parse_stringify (v : json) : parse (stringify v) = Some v.
Proof.
  unfold parse.
  destruct (round_trip_fuel (S (String.length (stringify v)))) as (Hv & _ & _).
  specialize (Hv v "").
  rewrite app_empty_r in Hv. rewrite Hv; [reflexivity| |reflexivity].
  pose proof (size_le_length (size v) v (Nat.le_refl _)). lia.
Qed.

End RefJSONFacts.

(** ** How [request] of [src/js/api.js] runs *)
Module ApiJsRun.
Import ApiJs Spec.
Section run.
Context `{JSON_codec}.

Lemma request_answered env st endpoint options resp :
  answers env st endpoint options resp ->
  request endpoint options env st =
  try_catch
    (data <- (if declares_json (content_type resp)
              then response_json resp
              else (t <- response_text resp ;; ret (JObj [("message", JStr t)]))) ;;
     if negb (ok resp) then
       (if (status resp =? 401)%Z then on_unauthorized else ret tt) ;;;
       v <- error_message data (status resp) ;;
       e <- new_Error v ;;
       throw e
     else ret data)
    (fun error => console_error "API request failed:" error ;;; throw error)
    env (sent st endpoint options).
Proof.
  intros Hans. unfold answers, outgoing in Hans.
  unfold request, try_catch, bind at 1, getToken, getItem. cbn beta iota.
  unfold bind at 1, fetch. cbn beta iota. rewrite Hans. reflexivity.
Qed.

Lemma request_offline env st endpoint options e :
  server env (events st) (outgoing st endpoint options) = inl e ->
  request endpoint options env st =
  (log (EConsoleError "API request failed:" e) (sent st endpoint options), inl e).
Proof.
  intros Hans. unfold outgoing in Hans.
  unfold request, try_catch, bind at 1, getToken, getItem. cbn beta iota.
  unfold bind at 1, fetch. cbn beta iota. rewrite Hans. reflexivity.
Qed.

Lemma read_body resp env st :
  (if declares_json (content_type resp)
   then response_json resp
   else (t <- response_text resp ;; ret (JObj [("message", JStr t)]))) env st
  = (st, match body_data resp with
         | Some data => inr data
         | None => inl (SyntaxError "Unexpected token in JSON")
         end).
Proof.
  unfold body_data, response_json, response_text, bind, ret, throw.
  destruct (declares_json (content_type resp)); [|reflexivity].
  destruct (JSON_parse (text resp)); reflexivity.
Qed.

Lemma on_unauthorized_run env st : on_unauthorized env st = (purged env st, inr tt).
Proof.
  unfold on_unauthorized, purged, bind, removeToken, removeCurrentUser, removeItem,
    location_pathname, set_location_href, ret. cbn.
  destruct (negb _ && negb _); reflexivity.
Qed.

(** A body that cannot be read ends the call before the status is looked at. *)
Lemma request_unreadable env st endpoint options resp :
  answers env st endpoint options resp ->
  body_data resp = None ->
  request endpoint options env st =
  (log (EConsoleError "API request failed:" (SyntaxError "Unexpected token in JSON"))
       (sent st endpoint options),
   inl (SyntaxError "Unexpected token in JSON")).
Proof.
  intros Hans Hbody. rewrite (request_answered _ _ _ _ _ Hans).
  unfold try_catch, bind at 1. rewrite read_body, Hbody. reflexivity.
Qed.

Lemma request_ok env st endpoint options resp data :
  answers env st endpoint options resp ->
  ok resp = true ->
  body_data resp = Some data ->
  request endpoint options env st = (sent st endpoint options, inr data).
Proof.
  intros Hans Hok Hbody. rewrite (request_answered _ _ _ _ _ Hans).
  unfold try_catch, bind at 1. rewrite read_body, Hbody, Hok. reflexivity.
Qed.

(** A readable non-2xx body: the 401 branch runs when it applies, and the
    exception of the failure tail is logged and rethrown. *)
Lemma request_not_ok env st endpoint options resp data e :
  answers env st endpoint options resp ->
  ok resp = false ->
  body_data resp = Some data ->
  (forall env' st',
     (v <- error_message data (status resp) ;; e <- new_Error v ;; throw e : M json) env' st'
     = (st', inl e)) ->
  request endpoint options env st =
  (log (EConsoleError "API request failed:" e)
       (if (status resp =? 401)%Z
        then purged env (sent st endpoint options)
        else sent st endpoint options),
   inl e).
Proof.
  intros Hans Hok Hbody He. rewrite (request_answered _ _ _ _ _ Hans).
  unfold try_catch, bind at 1. rewrite read_body, Hbody, Hok.
  cbn [negb]. unfold bind at 1.
  destruct (status resp =? 401)%Z.
  - rewrite on_unauthorized_run, He. reflexivity.
  - unfold ret at 1. rewrite He. reflexivity.
Qed.

(** The failure tail changes nothing and always throws. *)
Lemma failure_tail data code :
  exists e, forall env st,
    (v <- error_message data code ;; e <- new_Error v ;; throw e : M json) env st
    = (st, inl e).
Proof.
  unfold error_message, new_Error, or_else, bind, lift, ret, throw.
  destruct (get_prop data "message") as [e1|m]; [eauto|].
  destruct m as [j|].
  - destruct (truthy (Some j)).
    + destruct (ToString j); eauto.
    + destruct (get_prop data "error") as [e2|e]; [eauto|].
      destruct e as [j'|]; [destruct (truthy (Some j'))|];
        try (destruct (ToString j')); eauto.
  - destruct (get_prop data "error") as [e2|e]; [eauto|].
    destruct e as [j'|]; [destruct (truthy (Some j'))|];
      try (destruct (ToString j')); eauto.
Qed.

Lemma or_else_truthy v j rest :
  v = Some j -> truthy v = true -> or_else v rest = ret j.
Proof. intros -> Ht. unfold or_else. rewrite Ht. reflexivity. Qed.

Lemma or_else_falsy v rest : truthy v = false -> or_else v rest = rest.
Proof. intros Ht. unfold or_else. destruct v; [rewrite Ht|]; reflexivity. Qed.

(** The three ways the failure tail picks its message. *)
Lemma tail_message data code v s :
  get_prop data "message" = inr (Some v) -> truthy (Some v) = true ->
  ToString v = inr s ->
  forall env st,
    (v <- error_message data code ;; e <- new_Error v ;; throw e : M json) env st
    = (st, inl (Error s)).
Proof.
  intros Hm Ht Hs env st. unfold error_message, bind at 1, bind at 1, lift at 1.
  rewrite Hm. rewrite (or_else_truthy _ v) by done.
  unfold ret at 1, new_Error, bind, lift. rewrite Hs. reflexivity.
Qed.

Lemma tail_error data code m v s :
  get_prop data "message" = inr m -> truthy m = false ->
  get_prop data "error" = inr (Some v) -> truthy (Some v) = true ->
  ToString v = inr s ->
  forall env st,
    (v <- error_message data code ;; e <- new_Error v ;; throw e : M json) env st
    = (st, inl (Error s)).
Proof.
  intros Hm Hf He Ht Hs env st. unfold error_message, bind at 1, bind at 1, lift at 1.
  rewrite Hm. rewrite or_else_falsy by done.
  unfold bind at 1, lift at 1. rewrite He. rewrite (or_else_truthy _ v) by done.
  unfold ret at 1, new_Error, bind, lift. rewrite Hs. reflexivity.
Qed.

Lemma tail_generic data code m e :
  get_prop data "message" = inr m -> truthy m = false ->
  get_prop data "error" = inr e -> truthy e = false ->
  forall env st,
    (v <- error_message data code ;; e <- new_Error v ;; throw e : M json) env st
    = (st, inl (Error ("HTTP error! status: " +:+ string_of_Z code))).
Proof.
  intros Hm Hf He Hf' env st. unfold error_message, bind at 1, bind at 1, lift at 1.
  rewrite Hm. rewrite or_else_falsy by done.
  unfold bind at 1, lift at 1. rewrite He. rewrite or_else_falsy by done.
  reflexivity.
Qed.

Lemma purged_storage env st :
  localStorage (purged env st) = delete "current_user" (delete "auth_token" (localStorage st)).
Proof. unfold purged. destruct (negb _ && negb _); reflexivity. Qed.

Lemma purged_no_session env st : no_session (purged env st).
Proof.
  unfold no_session. rewrite purged_storage. split.
  - rewrite lookup_delete_ne by done. apply lookup_delete_eq.
  - apply lookup_delete_eq.
Qed.

Lemma navigations_log_fetch r st :
  navigations (events (log (EFetch r) st)) = navigations (events st).
Proof.
  unfold navigations, log. cbn. rewrite omap_app. cbn. apply app_nil_r.
Qed.

Lemma navigations_log_console l e st :
  navigations (events (log (EConsoleError l e) st)) = navigations (events st).
Proof.
  unfold navigations, log. cbn. rewrite omap_app. cbn. apply app_nil_r.
Qed.

Lemma navigations_log_navigate h st :
  navigations (events (log (ENavigate h) st)) = navigations (events st) ++ [h].
Proof. unfold navigations, log. cbn. rewrite omap_app. reflexivity. Qed.

Lemma navigations_purged env st :
  navigations (events (purged env st)) =
  navigations (events st) ++
  (if negb (String.eqb (pathname env) "/login.html")
      && negb (String.eqb (pathname env) "/register.html")
   then ["/pages/login.html"] else []).
Proof.
  unfold purged. destruct (negb _ && negb _).
  - apply (navigations_log_navigate _
             {| localStorage := delete "current_user" (delete "auth_token" (localStorage st));
                events := events st |}).
  - cbn [events]. symmetry. apply app_nil_r.
Qed.

Lemma fetched_log_fetch r st :
  fetched (events (log (EFetch r) st)) = fetched (events st) ++ [r].
Proof. unfold fetched, log. cbn. rewrite omap_app. reflexivity. Qed.

Lemma fetched_log_console l e st :
  fetched (events (log (EConsoleError l e) st)) = fetched (events st).
Proof. unfold fetched, log. cbn. rewrite omap_app. cbn. apply app_nil_r. Qed.

Lemma fetched_log_navigate h st :
  fetched (events (log (ENavigate h) st)) = fetched (events st).
Proof. unfold fetched, log. cbn. rewrite omap_app. cbn. apply app_nil_r. Qed.

Lemma fetched_purged env st : fetched (events (purged env st)) = fetched (events st).
Proof.
  unfold purged. destruct (negb _ && negb _); [|reflexivity].
  apply (fetched_log_navigate _
           {| localStorage := delete "current_user" (delete "auth_token" (localStorage st));
              events := events st |}).
Qed.

(** Whatever the network does, [request] calls [fetch] exactly once. *)
Lemma request_fetches_once env st endpoint options :
  fetched (events (request endpoint options env st).1) =
  fetched (events st) ++ [outgoing st endpoint options].
Proof.
  destruct (server env (events st) (outgoing st endpoint options)) as [e|resp] eqn:Hans.
  - rewrite (request_offline _ _ _ _ _ Hans). cbn [fst].
    rewrite fetched_log_console. apply fetched_log_fetch.
  - destruct (body_data resp) as [data|] eqn:Hbody.
    + destruct (ok resp) eqn:Hok.
      * rewrite (request_ok _ _ _ _ _ _ Hans Hok Hbody). apply fetched_log_fetch.
      * destruct (failure_tail data (status resp)) as [e He].
        rewrite (request_not_ok _ _ _ _ _ _ _ Hans Hok Hbody He). cbn [fst].
        rewrite fetched_log_console.
        destruct (status resp =? 401)%Z; [rewrite fetched_purged|];
          apply fetched_log_fetch.
    + rewrite (request_unreadable _ _ _ _ _ Hans Hbody). cbn [fst].
      rewrite fetched_log_console. apply fetched_log_fetch.
Qed.

(** With a non-empty token stored, the request carries it as a bearer. *)
Lemma outgoing_authorization st endpoint options t :
  localStorage st !! "auth_token" = Some t -> t <> "" ->
  headers (outgoing st endpoint options) !! "Authorization" = Some ("Bearer " +:+ t).
Proof.
  intros Ht Hne. unfold outgoing, request_headers. cbn [headers]. rewrite Ht.
  unfold truthy_item. destruct (String.eqb_spec t ""); [contradiction|].
  cbn [negb default]. apply lookup_insert_eq.
Qed.

Lemma store_session_run data fields t env st :
  data = JObj fields ->
  assoc "token" fields = Some (JStr t) -> t <> "" ->
  store_session data env st =
  ({| localStorage :=
        (if truthy (assoc "user" fields)
         then <[ "current_user" := JSON_stringify (default JNull (assoc "user" fields)) ]>
         else id) (<[ "auth_token" := t ]> (localStorage st));
      events := events st |}, inr data).
Proof.
  intros -> Htok Hne. unfold store_session, bind at 1, lift at 1. cbn [get_prop].
  rewrite Htok. unfold truthy at 1.
  destruct (String.eqb_spec t ""); [contradiction|]. cbn [negb].
  unfold bind at 1, bind at 1, setToken, bind at 1, lift at 1. cbn [ToString default].
  unfold setItem at 1, bind at 1, lift at 1. cbn [get_prop].
  destruct (truthy (assoc "user" fields)).
  - unfold setCurrentUser, setItem, ret. destruct st; reflexivity.
  - unfold ret. destruct st; reflexivity.
Qed.

Lemma run_auth_unfold op payload :
  run_auth op payload =
  (response <- request (auth_endpoint op) (POST payload) ;; store_session response).
Proof. destruct op; reflexivity. Qed.

Lemma getProfile_fetches_once env st :
  fetched (events (getProfile env st).1) =
  fetched (events st) ++ [outgoing st "/api/auth/me" GET].
Proof.
  rewrite <- (request_fetches_once env st "/api/auth/me" GET).
  unfold getProfile, bind at 1.
  destruct (request "/api/auth/me" GET env st) as [st1 [e|response]]; [reflexivity|].
  unfold bind at 1, lift at 1.
  destruct (get_prop response "user") as [e|u]; [reflexivity|].
  unfold bind at 1.
  destruct (truthy u || truthy (Some response)); reflexivity.
Qed.

End run.
End ApiJsRun.

(** ** Runs of [request] in the other revisions, and what the code's
    tests and message chains come to *)
Module RevisionsRun.
Import RawSpec Spec ApiJsRun.
Section run.
Context `{JSON_codec}.

Lemma raw_request_answered env st endpoint options resp :
  raw_answers env st endpoint options resp ->
  ApiRaw.request endpoint options env st =
  (data <- response_json resp ;;
   if negb (ok resp) then
     (if (status resp =? 401)%Z then
        ApiRaw.clearToken ;;; set_location_href "/pages/login.html"
      else ret tt) ;;;
     v <- ApiRaw.error_message data ;;
     e <- new_Error v ;;
     throw e
   else ret data) env (raw_sent st endpoint options).
Proof.
  intros Hans. unfold raw_answers, raw_outgoing in Hans.
  unfold ApiRaw.request, bind at 1, ApiRaw.getToken, getItem. cbn beta iota.
  unfold bind at 1, fetch. cbn beta iota. rewrite Hans. reflexivity.
Qed.

Lemma raw_request_offline env st endpoint options e :
  server env (events st) (raw_outgoing st endpoint options) = inl e ->
  ApiRaw.request endpoint options env st = (raw_sent st endpoint options, inl e).
Proof.
  intros Hans. unfold raw_outgoing in Hans.
  unfold ApiRaw.request, bind at 1, ApiRaw.getToken, getItem. cbn beta iota.
  unfold bind at 1, fetch. cbn beta iota. rewrite Hans. reflexivity.
Qed.

Lemma raw_request_ok env st endpoint options resp data :
  raw_answers env st endpoint options resp ->
  JSON_parse (text resp) = Some data ->
  ok resp = true ->
  ApiRaw.request endpoint options env st = (raw_sent st endpoint options, inr data).
Proof.
  intros Hans Hparse Hok. rewrite (raw_request_answered _ _ _ _ _ Hans).
  unfold bind at 1, response_json. rewrite Hparse, Hok. reflexivity.
Qed.

Lemma raw_failure_tail data :
  exists e, forall env st,
    (v <- ApiRaw.error_message data ;; e <- new_Error v ;; throw e : M json) env st
    = (st, inl e).
Proof.
  unfold ApiRaw.error_message, new_Error, or_else, bind, lift, ret, throw.
  destruct (get_prop data "msg") as [e1|m]; [eauto|].
  destruct m as [j|].
  - destruct (truthy (Some j)).
    + destruct (ToString j); eauto.
    + destruct (get_prop data "message") as [e2|e]; [eauto|].
      destruct e as [j'|]; [destruct (truthy (Some j'))|];
        try (destruct (ToString j')); eauto.
  - destruct (get_prop data "message") as [e2|e]; [eauto|].
    destruct e as [j'|]; [destruct (truthy (Some j'))|];
      try (destruct (ToString j')); eauto.
Qed.

Lemma raw_request_not_ok env st endpoint options resp data e :
  raw_answers env st endpoint options resp ->
  JSON_parse (text resp) = Some data ->
  ok resp = false ->
  (forall env' st',
     (v <- ApiRaw.error_message data ;; e <- new_Error v ;; throw e : M json) env' st'
     = (st', inl e)) ->
  ApiRaw.request endpoint options env st =
  (if (status resp =? 401)%Z
   then raw_purged (raw_sent st endpoint options)
   else raw_sent st endpoint options, inl e).
Proof.
  intros Hans Hparse Hok He. rewrite (raw_request_answered _ _ _ _ _ Hans).
  unfold bind at 1, response_json. rewrite Hparse, Hok.
  unfold ret at 1. cbn [negb]. unfold bind at 1.
  destruct (status resp =? 401)%Z.
  - unfold bind at 1, ApiRaw.clearToken, removeItem, set_location_href.
    rewrite He. reflexivity.
  - unfold ret at 1. rewrite He. reflexivity.
Qed.

Lemma raw_request_unreadable env st endpoint options resp :
  raw_answers env st endpoint options resp ->
  JSON_parse (text resp) = None ->
  ApiRaw.request endpoint options env st
  = (raw_sent st endpoint options, inl (SyntaxError "Unexpected token in JSON")).
Proof.
  intros Hans Hparse. rewrite (raw_request_answered _ _ _ _ _ Hans).
  unfold bind at 1, response_json. rewrite Hparse. reflexivity.
Qed.

Lemma navigations_raw_purged st :
  navigations (events (raw_purged st)) = navigations (events st) ++ ["/pages/login.html"].
Proof.
  apply (navigations_log_navigate _
           {| localStorage := delete "token" (localStorage st); events := events st |}).
Qed.

Lemma fetched_raw_purged st : fetched (events (raw_purged st)) = fetched (events st).
Proof.
  apply (fetched_log_navigate _
           {| localStorage := delete "token" (localStorage st); events := events st |}).
Qed.

(** The function-per-endpoint [request] hands [fetch] what the raw-token
    one does, and treats the answer alike but for the error message. *)
Lemma flat_request_answered env st endpoint options resp :
  raw_answers env st endpoint options resp ->
  ApiFlat.request endpoint options env st =
  (data <- response_json resp ;;
   if negb (ok resp) then
     (if (status resp =? 401)%Z then
        ApiFlat.clearToken ;;; set_location_href "/pages/login.html"
      else ret tt) ;;;
     v <- ApiFlat.error_message data ;;
     e <- new_Error v ;;
     throw e
   else ret data) env (raw_sent st endpoint options).
Proof.
  intros Hans. unfold raw_answers, raw_outgoing in Hans.
  unfold ApiFlat.request, bind at 1, ApiFlat.getToken, getItem. cbn beta iota.
  unfold bind at 1, fetch. cbn beta iota. rewrite Hans. reflexivity.
Qed.

Lemma flat_request_offline env st endpoint options e :
  server env (events st) (raw_outgoing st endpoint options) = inl e ->
  ApiFlat.request endpoint options env st = (raw_sent st endpoint options, inl e).
Proof.
  intros Hans. unfold raw_outgoing in Hans.
  unfold ApiFlat.request, bind at 1, ApiFlat.getToken, getItem. cbn beta iota.
  unfold bind at 1, fetch. cbn beta iota. rewrite Hans. reflexivity.
Qed.

Lemma flat_request_unreadable env st endpoint options resp :
  raw_answers env st endpoint options resp ->
  JSON_parse (text resp) = None ->
  ApiFlat.request endpoint options env st
  = (raw_sent st endpoint options, inl (SyntaxError "Unexpected token in JSON")).
Proof.
  intros Hans Hparse. rewrite (flat_request_answered _ _ _ _ _ Hans).
  unfold bind at 1, response_json. rewrite Hparse. reflexivity.
Qed.

Lemma flat_request_ok env st endpoint options resp data :
  raw_answers env st endpoint options resp ->
  JSON_parse (text resp) = Some data ->
  ok resp = true ->
  ApiFlat.request endpoint options env st = (raw_sent st endpoint options, inr data).
Proof.
  intros Hans Hparse Hok. rewrite (flat_request_answered _ _ _ _ _ Hans).
  unfold bind at 1, response_json. rewrite Hparse, Hok. reflexivity.
Qed.

Lemma flat_failure_tail data :
  exists e, forall env st,
    (v <- ApiFlat.error_message data ;; e <- new_Error v ;; throw e : M json) env st
    = (st, inl e).
Proof.
  unfold ApiFlat.error_message, new_Error, or_else, bind, lift, ret, throw.
  destruct (get_prop data "msg") as [e1|m]; [eauto|].
  destruct m as [j|]; [destruct (truthy (Some j))|];
    try (destruct (ToString j)); eauto.
Qed.

Lemma flat_request_not_ok env st endpoint options resp data e :
  raw_answers env st endpoint options resp ->
  JSON_parse (text resp) = Some data ->
  ok resp = false ->
  (forall env' st',
     (v <- ApiFlat.error_message data ;; e <- new_Error v ;; throw e : M json) env' st'
     = (st', inl e)) ->
  ApiFlat.request endpoint options env st =
  (if (status resp =? 401)%Z
   then raw_purged (raw_sent st endpoint options)
   else raw_sent st endpoint options, inl e).
Proof.
  intros Hans Hparse Hok He. rewrite (flat_request_answered _ _ _ _ _ Hans).
  unfold bind at 1, response_json. rewrite Hparse, Hok.
  unfold ret at 1. cbn [negb]. unfold bind at 1.
  destruct (status resp =? 401)%Z.
  - unfold bind at 1, ApiFlat.clearToken, removeItem, set_location_href.
    rewrite He. reflexivity.
  - unfold ret at 1. rewrite He. reflexivity.
Qed.

(** Whatever the network does, the function-per-endpoint [request] calls
    [fetch] exactly once. *)
Lemma flat_request_fetches_once env st endpoint options :
  fetched (events (ApiFlat.request endpoint options env st).1) =
  fetched (events st) ++ [raw_outgoing st endpoint options].
Proof.
  destruct (server env (events st) (raw_outgoing st endpoint options)) as [e|resp] eqn:Hans.
  - rewrite (flat_request_offline _ _ _ _ _ Hans). apply fetched_log_fetch.
  - destruct (JSON_parse (text resp)) as [data|] eqn:Hparse.
    + destruct (ok resp) eqn:Hok.
      * rewrite (flat_request_ok _ _ _ _ _ _ Hans Hparse Hok). apply fetched_log_fetch.
      * destruct (flat_failure_tail data) as [e He].
        rewrite (flat_request_not_ok _ _ _ _ _ _ _ Hans Hparse Hok He). cbn [fst].
        destruct (status resp =? 401)%Z; [rewrite fetched_raw_purged|];
          apply fetched_log_fetch.
    + rewrite (flat_request_unreadable _ _ _ _ _ Hans Hparse). apply fetched_log_fetch.
Qed.

(** The failure tails pick the first truthy candidate. *)
Lemma tail_selects data code m e :
  get_prop data "message" = inr m ->
  get_prop data "error" = inr e ->
  forall env st,
    (v <- ApiJs.error_message data code ;; e <- new_Error v ;; throw e : M json) env st
    = (st, inl (thrown (first_truthy [m; e]
                          ("HTTP error! status: " +:+ string_of_Z code)))).
Proof.
  intros Hm He env st.
  unfold ApiJs.error_message, new_Error, or_else, thrown, bind, lift, ret, throw.
  rewrite Hm. cbn [first_truthy]. unfold default, from_option, id.
  destruct m as [j|]; [destruct (truthy (Some j))|].
  - destruct (ToString j); reflexivity.
  - rewrite He. destruct e as [j'|]; [destruct (truthy (Some j'))|];
      cbn [truthy]; try (destruct (ToString j')); reflexivity.
  - rewrite He. cbn [truthy]. destruct e as [j'|]; [destruct (truthy (Some j'))|];
      cbn [truthy]; try (destruct (ToString j')); reflexivity.
Qed.

Lemma raw_tail_selects data m e :
  get_prop data "msg" = inr m ->
  get_prop data "message" = inr e ->
  forall env st,
    (v <- ApiRaw.error_message data ;; e <- new_Error v ;; throw e : M json) env st
    = (st, inl (thrown (first_truthy [m; e] "API Error"))).
Proof.
  intros Hm He env st.
  unfold ApiRaw.error_message, new_Error, or_else, thrown, bind, lift, ret, throw.
  rewrite Hm. cbn [first_truthy]. unfold default, from_option, id.
  destruct m as [j|]; [destruct (truthy (Some j))|].
  - destruct (ToString j); reflexivity.
  - rewrite He. destruct e as [j'|]; [destruct (truthy (Some j'))|];
      cbn [truthy]; try (destruct (ToString j')); reflexivity.
  - rewrite He. cbn [truthy]. destruct e as [j'|]; [destruct (truthy (Some j'))|];
      cbn [truthy]; try (destruct (ToString j')); reflexivity.
Qed.

Lemma flat_tail_selects data m :
  get_prop data "msg" = inr m ->
  forall env st,
    (v <- ApiFlat.error_message data ;; e <- new_Error v ;; throw e : M json) env st
    = (st, inl (thrown (first_truthy [m] "API Error"))).
Proof.
  intros Hm env st.
  unfold ApiFlat.error_message, new_Error, or_else, thrown, bind, lift, ret, throw.
  rewrite Hm. cbn [first_truthy]. unfold default, from_option, id.
  destruct m as [j|]; [destruct (truthy (Some j))|];
    cbn [truthy]; try (destruct (ToString j)); reflexivity.
Qed.

(** The code's content-type test is the occurrence of [application/json]
    in a header that is there. *)
Lemma declares_json_spec resp :
  ApiJs.declares_json (content_type resp) = true <-> json_content_type resp.
Proof.
  unfold ApiJs.declares_json, json_content_type.
  destruct (content_type resp) as [ct|]; cbn [truthy_item]; unfold default, from_option, id.
  - split.
    + intros Hd. apply andb_true_iff in Hd as [_ Hinc].
      apply StringFacts.includes_spec in Hinc as (pre & post & E).
      exists ct, pre, post. split; [reflexivity|exact E].
    + intros (ct' & pre & post & [= <-] & E).
      assert (Hinc : includes ct "application/json" = true)
        by (apply StringFacts.includes_spec; exists pre, post; exact E).
      rewrite Hinc, andb_true_r.
      destruct ct; [discriminate Hinc|reflexivity].
  - split; [discriminate|]. intros (ct' & pre & post & E & _). discriminate E.
Qed.

Lemma body_data_json resp :
  json_content_type resp -> body_data resp = JSON_parse (text resp).
Proof.
  intros Hct. apply declares_json_spec in Hct. unfold body_data. rewrite Hct. reflexivity.
Qed.

Lemma body_data_other resp :
  ~ json_content_type resp ->
  body_data resp = Some (JObj [("message", JStr (text resp))]).
Proof.
  intros Hct. unfold body_data.
  destruct (ApiJs.declares_json (content_type resp)) eqn:Hd; [|reflexivity].
  exfalso. apply Hct, declares_json_spec, Hd.
Qed.

End run.
End RevisionsRun.

(** ** The request gateway: [src/js/api.js] and its revisions *)
Module Gateway.
Import ApiJs Spec RawSpec ApiJsRun RevisionsRun.
Section gateway.
Context `{JSON_codec}.

(** X24. In [src/js/api.js] every request answered with status 401
    rejects: the caller never gets a success result. When moreover
    [request] can read the body (a non-JSON content type, or a JSON
    content type with a body that parses), the token entry and the cached
    profile are both gone from [localStorage] once the call completes. *)
Theorem unauthorized_purges_session env st endpoint options resp :
  answers env st endpoint options resp ->
  status resp = 401%Z ->
  rejected (request endpoint options env st).2 /\
  (forall data, body_data resp = Some data ->
     no_session (request endpoint options env st).1).
Proof.
  intros Hans H401.
  assert (Hok : ok resp = false) by (unfold ok; rewrite H401; reflexivity).
  destruct (body_data resp) as [data|] eqn:Hbody.
  - destruct (failure_tail data (status resp)) as [e He].
    rewrite (request_not_ok _ _ _ _ _ _ _ Hans Hok Hbody He).
    rewrite H401. cbn. split.
    + exists e. reflexivity.
    + intros _ _. apply purged_no_session.
  - rewrite (request_unreadable _ _ _ _ _ Hans Hbody). split.
    + eexists. reflexivity.
    + intros data Hdata. discriminate Hdata.
Qed.

(** C3 (as amended). For every request answered with a status in
    [200,299]. In [src/js/api.js]: when the response declares a JSON
    content type, [request] returns what the body parses to, unchanged,
    so that an echo of the JSON-encoded request body comes back as the
    original payload; when it declares none or another one, [request]
    returns the raw text wrapped as [{ message: text }]. In the raw-token
    revision the content type plays no part: [request] returns what the
    body parses to, the echoed payload included, and rejects with the
    parse error when the body is not JSON; it never wraps. *)
Theorem success_returns_body env st endpoint options resp :
  (200 <= status resp <= 299)%Z ->
  (answers env st endpoint options resp ->
   (json_content_type resp ->
    forall data, JSON_parse (text resp) = Some data ->
      (request endpoint options env st).2 = inr data) /\
   (json_content_type resp ->
    forall payload,
      opt_body options = Some (JSON_stringify payload) ->
      Some (text resp) = body (outgoing st endpoint options) ->
      JSON_parse (JSON_stringify payload) = Some payload ->
      (request endpoint options env st).2 = inr payload) /\
   (~ json_content_type resp ->
    (request endpoint options env st).2 = inr (JObj [("message", JStr (text resp))]))) /\
  (raw_answers env st endpoint options resp ->
   (forall data, JSON_parse (text resp) = Some data ->
      (ApiRaw.request endpoint options env st).2 = inr data) /\
   (forall payload,
      opt_body options = Some (JSON_stringify payload) ->
      Some (text resp) = body (raw_outgoing st endpoint options) ->
      JSON_parse (JSON_stringify payload) = Some payload ->
      (ApiRaw.request endpoint options env st).2 = inr payload) /\
   (JSON_parse (text resp) = None ->
    (ApiRaw.request endpoint options env st).2
    = inl (SyntaxError "Unexpected token in JSON"))).
Proof.
  intros [Hlo Hhi].
  assert (Hok : ok resp = true).
  { unfold ok. apply andb_true_iff. split; apply Z.leb_le; assumption. }
  split.
  - intros Hans.
    assert (Hjson : json_content_type resp ->
                    forall data, JSON_parse (text resp) = Some data ->
                    (request endpoint options env st).2 = inr data).
    { intros Hct data Hparse.
      rewrite (request_ok _ _ _ _ _ data Hans Hok); [reflexivity|].
      rewrite (body_data_json _ Hct). exact Hparse. }
    split; [exact Hjson|]. split.
    + intros Hct payload Hbody Hecho Hround. apply Hjson; [exact Hct|].
      cbn in Hecho. rewrite Hbody in Hecho. injection Hecho as ->. exact Hround.
    + intros Hct.
      rewrite (request_ok _ _ _ _ _ (JObj [("message", JStr (text resp))]) Hans Hok);
        [reflexivity|].
      apply body_data_other. exact Hct.
  - intros Hans.
    assert (Hjson : forall data, JSON_parse (text resp) = Some data ->
                    (ApiRaw.request endpoint options env st).2 = inr data).
    { intros data Hparse.
      rewrite (raw_request_ok _ _ _ _ _ _ Hans Hparse Hok). reflexivity. }
    split; [exact Hjson|]. split.
    + intros payload Hbody Hecho Hround. apply Hjson.
      cbn in Hecho. rewrite Hbody in Hecho. injection Hecho as ->. exact Hround.
    + intros Hparse. rewrite (raw_request_unreadable _ _ _ _ _ Hans Hparse). reflexivity.
Qed.

(** C7. For every request answered with a non-2xx status other than 401,
    the call rejects and [localStorage] is the same after it as before:
    the token and the cached profile are untouched. *)
Theorem other_failure_keeps_session env st endpoint options resp :
  answers env st endpoint options resp ->
  ok resp = false ->
  status resp <> 401%Z ->
  rejected (request endpoint options env st).2 /\
  localStorage (request endpoint options env st).1 = localStorage st.
Proof.
  intros Hans Hok H401. apply Z.eqb_neq in H401.
  destruct (body_data resp) as [data|] eqn:Hbody.
  - destruct (failure_tail data (status resp)) as [e He].
    rewrite (request_not_ok _ _ _ _ _ _ _ Hans Hok Hbody He), H401.
    split; [exists e|]; reflexivity.
  - rewrite (request_unreadable _ _ _ _ _ Hans Hbody).
    split; [eexists|]; reflexivity.
Qed.

(** C4 (as amended). For every 401 response whose body [request] can
    read. In [src/js/api.js] the redirect to the login page is skipped
    when the current path is exactly [/login.html] or [/register.html];
    it is performed on every path that ends in neither, which covers
    every page outside the guard's allow-list and also the site root and
    the index page. In the raw-token revision nothing is skipped: the
    redirect is performed on every page. *)
Theorem unauthorized_redirect env st endpoint options resp data :
  status resp = 401%Z ->
  (answers env st endpoint options resp ->
   body_data resp = Some data ->
   let after := (request endpoint options env st).1 in
   (pathname env = "/login.html" \/ pathname env = "/register.html" ->
    navigations (events after) = navigations (events st)) /\
   (endsWith (pathname env) "/login.html" = false ->
    endsWith (pathname env) "/register.html" = false ->
    navigations (events after) = navigations (events st) ++ ["/pages/login.html"]) /\
   (AuthGuard.isPublicPage (pathname env) = false ->
    navigations (events after) = navigations (events st) ++ ["/pages/login.html"])) /\
  (raw_answers env st endpoint options resp ->
   JSON_parse (text resp) = Some data ->
   navigations (events (ApiRaw.request endpoint options env st).1)
   = navigations (events st) ++ ["/pages/login.html"]).
Proof.
  intros H401.
  assert (Hok : ok resp = false) by (unfold ok; rewrite H401; reflexivity).
  split.
  - intros Hans Hbody.
    destruct (failure_tail data (status resp)) as [e He].
    rewrite (request_not_ok _ _ _ _ _ _ _ Hans Hok Hbody He).
    rewrite H401. cbn [Z.eqb Pos.eqb fst].
    rewrite navigations_log_console, navigations_purged. unfold sent.
    rewrite navigations_log_fetch.
    assert (Hperformed :
      endsWith (pathname env) "/login.html" = false ->
      endsWith (pathname env) "/register.html" = false ->
      navigations (events st) ++
        (if negb (String.eqb (pathname env) "/login.html")
            && negb (String.eqb (pathname env) "/register.html")
         then ["/pages/login.html"] else [])
      = navigations (events st) ++ ["/pages/login.html"]).
    { intros Hl Hr.
      destruct (String.eqb_spec (pathname env) "/login.html") as [E|_];
        [rewrite E in Hl; discriminate Hl|].
      destruct (String.eqb_spec (pathname env) "/register.html") as [E|_];
        [rewrite E in Hr; discriminate Hr|].
      reflexivity. }
    split; [|split].
    + intros [E|E]; rewrite E; cbn [String.eqb Ascii.eqb Bool.eqb negb andb];
        apply app_nil_r.
    + exact Hperformed.
    + intros Hpub. unfold AuthGuard.isPublicPage, AuthGuard.publicPages in Hpub.
      cbn [existsb] in Hpub.
      apply orb_false_iff in Hpub as [Hl Hpub]. apply orb_false_iff in Hl as [Hl _].
      apply orb_false_iff in Hpub as [Hr _]. apply orb_false_iff in Hr as [Hr _].
      apply Hperformed; assumption.
  - intros Hans Hparse.
    destruct (raw_failure_tail data) as [e He].
    rewrite (raw_request_not_ok _ _ _ _ _ _ _ Hans Hparse Hok He).
    rewrite H401. cbn [Z.eqb Pos.eqb fst].
    rewrite navigations_raw_purged. unfold raw_sent.
    rewrite navigations_log_fetch. reflexivity.
Qed.

(** C8 (as amended). For every non-2xx response whose body [request] can
    read as a value other than [null], the error raised is [new Error] of
    the first truthy candidate, a candidate that is absent, empty, zero,
    [false] or [null] being passed over. The candidates are, in
    [src/js/api.js], [data.message], then [data.error], then the generic
    ["HTTP error! status: <code>"]; in the raw-token revision [data.msg],
    then [data.message], then the fixed ["API Error"]; in the
    function-per-endpoint revision [data.msg], then ["API Error"]. The
    message is the candidate as a string; a candidate that has no string
    form raises the [TypeError] of the conversion instead. *)
Theorem failure_message env st endpoint options resp data :
  ok resp = false ->
  (answers env st endpoint options resp ->
   body_data resp = Some data ->
   forall m e, get_prop data "message" = inr m -> get_prop data "error" = inr e ->
     (request endpoint options env st).2
     = inl (thrown (first_truthy [m; e]
                      ("HTTP error! status: " +:+ string_of_Z (status resp))))) /\
  (raw_answers env st endpoint options resp ->
   JSON_parse (text resp) = Some data ->
   forall m e, get_prop data "msg" = inr m -> get_prop data "message" = inr e ->
     (ApiRaw.request endpoint options env st).2
     = inl (thrown (first_truthy [m; e] "API Error"))) /\
  (raw_answers env st endpoint options resp ->
   JSON_parse (text resp) = Some data ->
   forall m, get_prop data "msg" = inr m ->
     (ApiFlat.request endpoint options env st).2
     = inl (thrown (first_truthy [m] "API Error"))).
Proof.
  intros Hok. split; [|split].
  - intros Hans Hbody m e Hm He.
    rewrite (request_not_ok _ _ _ _ _ _ _ Hans Hok Hbody (tail_selects _ _ _ _ Hm He)).
    reflexivity.
  - intros Hans Hparse m e Hm He.
    rewrite (raw_request_not_ok _ _ _ _ _ _ _ Hans Hparse Hok (raw_tail_selects _ _ _ Hm He)).
    reflexivity.
  - intros Hans Hparse m Hm.
    rewrite (flat_request_not_ok _ _ _ _ _ _ _ Hans Hparse Hok (flat_tail_selects _ _ Hm)).
    reflexivity.
Qed.

End gateway.
End Gateway.

(** ** The authentication facade: [src/js/api.js] and [loginUser] *)
Module Facade.
Import ApiJs Spec RawSpec ApiJsRun RevisionsRun.
Section facade.
Context `{JSON_codec}.

(** C5 (as amended). For every successful login, and for every
    successful registration through [apiService] of [src/js/api.js],
    whose response carries a token (a non-empty string), the operation
    returns the response with the token stored under the revision's key,
    and the profile request that follows sends exactly one request, to
    [/api/auth/me], with that token in its [Authorization] header.
    [src/js/api.js] stores under [auth_token], also caches the user
    profile under [current_user] when the response carries one, and
    sends the token with the bearer prefix. [loginUser] of the
    function-per-endpoint revision stores under [token], writes no other
    entry, a profile included, and sends the token as it is. *)
Theorem session_opened (op : auth_op) env st payload resp data t :
  ok resp = true ->
  get_prop data "token" = inr (Some (JStr t)) ->
  t <> "" ->
  (answers env st (auth_endpoint op) (POST payload) resp ->
   body_data resp = Some data ->
   let out := run_auth op payload env st in
   out.2 = inr data /\
   localStorage out.1 !! "auth_token" = Some t /\
   (forall user, get_prop data "user" = inr (Some user) -> truthy (Some user) = true ->
      localStorage out.1 !! "current_user" = Some (JSON_stringify user)) /\
   exists req,
     fetched (events (getProfile env out.1).1) = fetched (events out.1) ++ [req] /\
     url req = API_BASE_URL +:+ "/api/auth/me" /\
     headers req !! "Authorization" = Some ("Bearer " +:+ t)) /\
  (raw_answers env st "/api/auth/login" (ApiRaw.POST payload) resp ->
   JSON_parse (text resp) = Some data ->
   let out := ApiFlat.loginUser payload env st in
   out.2 = inr data /\
   localStorage out.1 !! "token" = Some t /\
   (forall key, key <> "token" -> localStorage out.1 !! key = localStorage st !! key) /\
   exists req,
     fetched (events (ApiFlat.getMe env out.1).1) = fetched (events out.1) ++ [req] /\
     url req = ApiRaw.API_BASE +:+ "/api/auth/me" /\
     headers req !! "Authorization" = Some t).
Proof.
  intros Hok Htok Hne. split.
  - intros Hans Hbody.
    destruct data as [| | | | |fields]; try discriminate Htok.
    cbn [get_prop] in Htok. injection Htok as Htok.
    rewrite run_auth_unfold. unfold bind at 1.
    rewrite (request_ok _ _ _ _ _ _ Hans Hok Hbody).
    rewrite (store_session_run _ fields t _ _ eq_refl Htok Hne). cbn zeta. cbn [fst snd].
    assert (Hstored :
      ((if truthy (assoc "user" fields)
        then <[ "current_user" := JSON_stringify (default JNull (assoc "user" fields)) ]>
        else id)
         (<[ "auth_token" := t ]> (localStorage (sent st (auth_endpoint op) (POST payload)))))
      !! "auth_token" = Some t).
    { destruct (truthy (assoc "user" fields)).
      - rewrite lookup_insert_ne by done. apply lookup_insert_eq.
      - apply lookup_insert_eq. }
    split; [reflexivity|]. split; [exact Hstored|]. split.
    + intros user Huser Htruthy. cbn [get_prop] in Huser. injection Huser as Huser.
      rewrite Huser, Htruthy. cbn [default]. apply lookup_insert_eq.
    + eexists. split; [apply getProfile_fetches_once|]. split; [reflexivity|].
      apply outgoing_authorization; [exact Hstored|exact Hne].
  - intros Hans Hparse.
    assert (Hrun : ApiFlat.loginUser payload env st
      = ({| localStorage :=
              <[ "token" := t ]>
                (localStorage (raw_sent st "/api/auth/login" (ApiRaw.POST payload)));
            events := events (raw_sent st "/api/auth/login" (ApiRaw.POST payload)) |},
         inr data)).
    { unfold ApiFlat.loginUser, bind at 1.
      rewrite (flat_request_ok _ _ _ _ _ _ Hans Hparse Hok).
      unfold bind at 1, lift at 1. rewrite Htok.
      unfold truthy. destruct (String.eqb_spec t ""); [contradiction|]. reflexivity. }
    cbn zeta. rewrite Hrun. cbn [fst snd].
    split; [reflexivity|]. split; [apply lookup_insert_eq|]. split.
    + intros key Hkey. cbn [localStorage]. rewrite lookup_insert_ne by done. reflexivity.
    + eexists. split; [apply flat_request_fetches_once|]. split; [reflexivity|].
      unfold raw_outgoing, ApiRaw.request_headers. cbn [headers localStorage].
      rewrite lookup_insert_eq. unfold truthy_item.
      destruct (String.eqb_spec t ""); [contradiction|].
      cbn [negb default]. apply lookup_insert_eq.
Qed.

(** C9. [logout] is local: it removes the token entry and the cached
    profile, asks for the login page, and calls [fetch] not at all; its
    outcome is the same on every page and under every network. *)
Theorem logout_is_local env st :
  logout env st =
    ({| localStorage := delete "current_user" (delete "auth_token" (localStorage st));
        events := events st ++ [ENavigate "/pages/login.html"] |}, inr tt) /\
  no_session (logout env st).1 /\
  fetched (events (logout env st).1) = fetched (events st) /\
  (forall env', logout env' st = logout env st).
Proof.
  assert (Hrun : forall env0, logout env0 st =
    ({| localStorage := delete "current_user" (delete "auth_token" (localStorage st));
        events := events st ++ [ENavigate "/pages/login.html"] |}, inr tt))
    by reflexivity.
  split; [apply Hrun|]. rewrite Hrun. cbn [fst]. split; [|split].
  - split; cbn [localStorage].
    + rewrite lookup_delete_ne by done. apply lookup_delete_eq.
    + apply lookup_delete_eq.
  - cbn [events]. unfold fetched. rewrite omap_app. cbn. apply app_nil_r.
  - intros env'. apply Hrun.
Qed.

End facade.
End Facade.

(** ** The session guard of [src/js/auth-guard.js] *)
Module Guard.
Import AuthGuard Spec StringFacts.

Lemma guard_run env st :
  guard env st =
  if negb (truthy_item (localStorage st !! "token")) && negb (isPublicPage (pathname env))
  then blocked st else passed st.
Proof.
  unfold guard, bind, getItem, location_pathname. cbn beta iota.
  destruct (negb _ && negb _); reflexivity.
Qed.

(** Membership in the allow-list: an entry the path ends with, or equals. *)
Lemma isPublicPage_spec p :
  isPublicPage p = true <->
  exists page, In page publicPages /\ (endsWith p page = true \/ p = page).
Proof.
  unfold isPublicPage. rewrite existsb_exists. split.
  - intros (page & Hin & Hm). exists page. split; [exact Hin|].
    apply orb_true_iff in Hm as [Hm|Hm]; [left; exact Hm|].
    right. apply String.eqb_eq. exact Hm.
  - intros (page & Hin & [Hm| ->]); exists page; (split; [exact Hin|]).
    + rewrite Hm. reflexivity.
    + rewrite String.eqb_refl. apply orb_true_r.
Qed.

(** C2. On every path outside the allow-list, with no credential stored
    (no [token] entry, or an empty one), the guard asks for the login page
    and throws. The exception ends the script element the guard runs in
    and no other: whatever script element comes next on the page runs, in
    the state the guard leaves; on the dashboard page that is the
    dashboard script, which reads the token and asks for [login.html]
    itself. *)
Theorem guard_halts_only_its_script env st :
  isPublicPage (pathname env) = false ->
  truthy_item (localStorage st !! "token") = false ->
  guard env st =
    (log (ENavigate "/pages/login.html") st, inl (Error "Authentication required")) /\
  (forall next : M unit,
     Page.run_scripts [guard; next] env st =
     Page.run_script next env
       (log (EConsoleError "Uncaught" (Error "Authentication required"))
          (log (ENavigate "/pages/login.html") st))) /\
  Page.run_scripts Page.dashboard env st =
    log (ENavigate "login.html")
      (log (EConsoleError "Uncaught" (Error "Authentication required"))
         (log (ENavigate "/pages/login.html") st)).
Proof.
  intros Hpub Htok.
  assert (Hg : guard env st = blocked st) by (rewrite guard_run, Hpub, Htok; reflexivity).
  assert (Hnext : forall next : M unit,
    Page.run_scripts [guard; next] env st =
    Page.run_script next env
      (log (EConsoleError "Uncaught" (Error "Authentication required"))
         (log (ENavigate "/pages/login.html") st))).
  { intros next. unfold Page.run_scripts. cbn [fold_left].
    unfold Page.run_script at 2. rewrite Hg. reflexivity. }
  split; [exact Hg|]. split; [exact Hnext|].
  unfold Page.dashboard. rewrite Hnext.
  unfold Page.run_script, Pages.dashboard_entry, bind, getItem.
  cbn [localStorage log]. rewrite Htok. reflexivity.
Qed.

(** C6. On every path that matches an entry of the allow-list (it ends
    with the entry, or is the entry), the guard returns normally and asks
    for no navigation, whatever [localStorage] holds; the script goes on. *)
Theorem guard_allows_public env st page :
  In page publicPages ->
  endsWith (pathname env) page = true \/ pathname env = page ->
  guard env st = (log (EConsoleLog "Authentication verified") st, inr tt) /\
  navigations (events (guard env st).1) = navigations (events st) /\
  forall (A : Type) (rest : M A),
    script rest env st = rest env (log (EConsoleLog "Authentication verified") st).
Proof.
  intros Hin Hmatch.
  assert (Hpub : isPublicPage (pathname env) = true)
    by (apply isPublicPage_spec; exists page; split; assumption).
  assert (Hg : guard env st = passed st).
  { rewrite guard_run, Hpub, andb_false_r. reflexivity. }
  split; [exact Hg|]. split.
  - rewrite Hg. unfold passed, navigations, log. cbn.
    rewrite omap_app. cbn. apply app_nil_r.
  - intros A rest. unfold script, bind. rewrite Hg. reflexivity.
Qed.

(** C10. Every path that ends in [/] counts as public, because [/] is an
    entry of the allow-list and entries are matched as suffixes: on such a
    path the guard lets the page go on for any [localStorage], an empty
    one included. *)
Theorem trailing_slash_is_public env st pre :
  pathname env = pre +:+ "/" ->
  isPublicPage (pathname env) = true /\
  guard env st = (log (EConsoleLog "Authentication verified") st, inr tt).
Proof.
  intros Hpath.
  assert (Hpub : isPublicPage (pathname env) = true).
  { apply isPublicPage_spec. exists "/". split.
    - unfold publicPages. cbn. tauto.
    - left. apply endsWith_spec. exists pre. exact Hpath. }
  split; [exact Hpub|].
  rewrite guard_run, Hpub, andb_false_r. reflexivity.
Qed.

(** [requireAuth] of the raw-token revision passes the same pages, by
    returning [true] without asking for a navigation. *)
Lemma requireAuth_allows_public `{JSON_codec} env st page :
  In page ApiRaw.publicPages ->
  endsWith (pathname env) page = true ->
  ApiRaw.requireAuth env st = (st, inr true).
Proof.
  intros Hin Hends.
  unfold ApiRaw.requireAuth, bind, ApiRaw.getToken, getItem, location_pathname.
  cbn beta iota.
  assert (Hpub : existsb (fun page => endsWith (pathname env) page) ApiRaw.publicPages
                 = true) by (apply existsb_exists; exists page; split; assumption).
  rewrite Hpub, andb_false_r. reflexivity.
Qed.

End Guard.

(** ** The statements at sample inputs *)
Module Checks.
Import RefJSON Samples MoreSamples ApiJs Spec RawSpec.
#[local] Existing Instance codec.

(** C1. The failing inputs. A 401 whose body the code cannot read is
    rejected before its status is looked at, so the 401 branch is never
    reached: [src/js/api.js] on a 401 that announces JSON and carries no
    body, the raw-token revision on a 401 with a plain-text body. Either
    call rejects with the stored credential still in place and asks for
    no navigation. *)
Theorem unreadable_401_keeps_credential :
  (status bare_401 = 401%Z /\
   answers (page "/pages/dashboard.html" bare_401) logged_in "/api/tasks" GET bare_401 /\
   (exists m,
      (request "/api/tasks" GET (page "/pages/dashboard.html" bare_401) logged_in).2
      = inl (SyntaxError m)) /\
   localStorage (request "/api/tasks" GET (page "/pages/dashboard.html" bare_401)
                   logged_in).1 !! "auth_token" = Some "t0k3n" /\
   localStorage (request "/api/tasks" GET (page "/pages/dashboard.html" bare_401)
                   logged_in).1 !! "current_user" = Some "{}" /\
   navigations (events (request "/api/tasks" GET (page "/pages/dashboard.html" bare_401)
                          logged_in).1) = []) /\
  (status unauthorized_text = 401%Z /\
   raw_answers (page "/pages/dashboard.html" unauthorized_text) raw_logged_in
               "/api/tasks" no_options unauthorized_text /\
   (exists m,
      (ApiRaw.request "/api/tasks" no_options
         (page "/pages/dashboard.html" unauthorized_text) raw_logged_in).2
      = inl (SyntaxError m)) /\
   localStorage (ApiRaw.request "/api/tasks" no_options
                   (page "/pages/dashboard.html" unauthorized_text) raw_logged_in).1
     !! "token" = Some "abc123" /\
   navigations (events (ApiRaw.request "/api/tasks" no_options
                          (page "/pages/dashboard.html" unauthorized_text)
                          raw_logged_in).1) = []).
Proof.
  split.
  - split; [reflexivity|]. split; [reflexivity|].
    split; [eexists; vm_compute; reflexivity|].
    repeat split; vm_compute; reflexivity.
  - split; [reflexivity|]. split; [reflexivity|].
    split; [eexists; vm_compute; reflexivity|].
    repeat split; vm_compute; reflexivity.
Qed.

Lemma unauthorized_purges_session_witness :
  rejected (request "/api/tasks" GET (page "/pages/dashboard.html" token_expired) logged_in).2 /\
  no_session (request "/api/tasks" GET (page "/pages/dashboard.html" token_expired) logged_in).1.
Proof.
  destruct (Gateway.unauthorized_purges_session
              (page "/pages/dashboard.html" token_expired) logged_in "/api/tasks" GET
              token_expired) as [Hrej Hgone].
  - reflexivity.
  - reflexivity.
  - split; [exact Hrej|].
    apply (Hgone (JObj [("message", JStr "Token expired")])).
    vm_compute. reflexivity.
Defined.

(** Which headers declare JSON. *)
Example content_types :
  json_content_type (json_response 200 JNull) /\
  json_content_type {| status := 200; content_type := Some "application/json"; text := "" |} /\
  ~ json_content_type (text_response 200 "") /\
  ~ json_content_type {| status := 200; content_type := Some ""; text := "" |} /\
  ~ json_content_type {| status := 200; content_type := None; text := "" |}.
Proof.
  split; [exists "application/json; charset=utf-8", "", "; charset=utf-8"; split; reflexivity|].
  split; [exists "application/json", "", ""; split; reflexivity|].
  repeat split; intros Hct; apply RevisionsRun.declares_json_spec in Hct; discriminate Hct.
Qed.

(** The round trip of the task of the specification's example, in
    [src/js/api.js] and in the raw-token revision, and a text answer
    wrapped by [src/js/api.js]. *)
Lemma success_returns_body_witness :
  (request "/api/tasks" (POST task) (echo_page "/pages/create-task.html") logged_in).2
    = inr task /\
  (ApiRaw.request "/api/tasks" (ApiRaw.POST task) (echo_page "/pages/create-task.html")
     raw_logged_in).2 = inr task /\
  (request "/api/tasks" GET (page "/pages/dashboard.html" (text_response 200 "OK"))
     logged_in).2 = inr (JObj [("message", JStr "OK")]).
Proof.
  assert (Hct : json_content_type
                  {| status := 200; content_type := Some "application/json";
                     text := stringify task |})
    by (exists "application/json", "", ""; split; reflexivity).
  assert (Hother : ~ json_content_type (text_response 200 "OK")).
  { intros Hjson. apply RevisionsRun.declares_json_spec in Hjson. discriminate Hjson. }
  destruct (Gateway.success_returns_body
              (echo_page "/pages/create-task.html") logged_in "/api/tasks" (POST task)
              {| status := 200; content_type := Some "application/json";
                 text := stringify task |}) as [Hjs _]; [cbn; lia|].
  destruct (Gateway.success_returns_body
              (echo_page "/pages/create-task.html") raw_logged_in "/api/tasks"
              (ApiRaw.POST task)
              {| status := 200; content_type := Some "application/json";
                 text := stringify task |}) as [_ Hraw]; [cbn; lia|].
  destruct (Gateway.success_returns_body
              (page "/pages/dashboard.html" (text_response 200 "OK")) logged_in
              "/api/tasks" GET (text_response 200 "OK")) as [Htext _]; [cbn; lia|].
  split; [|split].
  - destruct Hjs as (_ & Hecho & _); [reflexivity|].
    apply (Hecho Hct task); [reflexivity|reflexivity|vm_compute; reflexivity].
  - destruct Hraw as (_ & Hecho & _); [reflexivity|].
    apply (Hecho task); [reflexivity|reflexivity|vm_compute; reflexivity].
  - destruct Htext as (_ & _ & Hwrap); [reflexivity|].
    apply (Hwrap Hother).
Defined.

Lemma other_failure_keeps_session_witness :
  rejected (request "/api/tasks" GET
              (page "/pages/dashboard.html" (text_response 503 "Service Unavailable"))
              logged_in).2 /\
  localStorage (request "/api/tasks" GET
                  (page "/pages/dashboard.html" (text_response 503 "Service Unavailable"))
                  logged_in).1
  = localStorage logged_in.
Proof.
  apply (Gateway.other_failure_keeps_session
           (page "/pages/dashboard.html" (text_response 503 "Service Unavailable"))
           logged_in "/api/tasks" GET (text_response 503 "Service Unavailable")).
  - reflexivity.
  - reflexivity.
  - cbn. lia.
Defined.

(** The site root is on the allow-list, and a 401 received there still
    sends the browser to the login page; the raw-token revision does so
    on a page named [/login.html] too. *)
Lemma public_pages_are_redirected :
  (AuthGuard.isPublicPage "/" = true /\
   answers (page "/" token_expired) logged_in "/api/tasks" GET token_expired /\
   status token_expired = 401%Z /\
   navigations (events (request "/api/tasks" GET (page "/" token_expired) logged_in).1)
   = navigations (events logged_in) ++ ["/pages/login.html"]) /\
  (AuthGuard.isPublicPage "/login.html" = true /\
   raw_answers (page "/login.html" token_expired) logged_out "/api/auth/login"
               (ApiRaw.POST credentials) token_expired /\
   navigations (events (ApiRaw.request "/api/auth/login" (ApiRaw.POST credentials)
                          (page "/login.html" token_expired) logged_out).1)
   = navigations (events logged_out) ++ ["/pages/login.html"]).
Proof.
  split.
  - split; [reflexivity|]. split; [reflexivity|]. split; [reflexivity|].
    vm_compute. reflexivity.
  - split; [reflexivity|]. split; [reflexivity|]. vm_compute. reflexivity.
Qed.

Lemma unauthorized_redirect_witness :
  navigations (events (request "/api/tasks" GET
                         (page "/pages/dashboard.html" token_expired) logged_in).1)
    = navigations (events logged_in) ++ ["/pages/login.html"] /\
  navigations (events (ApiRaw.request "/api/tasks" GET
                         (page "/pages/dashboard.html" token_expired) logged_in).1)
    = navigations (events logged_in) ++ ["/pages/login.html"].
Proof.
  destruct (Gateway.unauthorized_redirect
              (page "/pages/dashboard.html" token_expired) logged_in "/api/tasks" GET
              token_expired (JObj [("message", JStr "Token expired")]))
    as [Hjs Hraw]; [reflexivity|].
  split.
  - destruct Hjs as (_ & _ & Hredirect); [reflexivity|vm_compute; reflexivity|].
    apply Hredirect. reflexivity.
  - apply Hraw; [reflexivity|vm_compute; reflexivity].
Defined.

(** A failure whose JSON body has a [message] field holding the empty
    string: the field is present, and [src/js/api.js] carries [error]
    instead. The raw-token revision puts [msg] before [message] and has a
    generic text without the status code; the function-per-endpoint
    revision does not look at [message] at all. *)
Lemma message_rule_varies :
  (answers (page "/pages/create-task.html" (json_response 422 blank_message)) logged_in
           "/api/tasks" (POST task) (json_response 422 blank_message) /\
   ok (json_response 422 blank_message) = false /\
   body_data (json_response 422 blank_message) = Some blank_message /\
   get_prop blank_message "message" = inr (Some (JStr "")) /\
   (request "/api/tasks" (POST task)
      (page "/pages/create-task.html" (json_response 422 blank_message)) logged_in).2
   = inl (Error "Title is required")) /\
  (get_prop two_messages "message" = inr (Some (JStr "Validation failed")) /\
   (ApiRaw.request "/api/tasks" (ApiRaw.POST task)
      (page "/pages/create-task.html" (json_response 422 two_messages)) raw_logged_in).2
   = inl (Error "Title is required")) /\
  (ApiRaw.request "/api/tasks" no_options
     (page "/pages/dashboard.html" (json_response 500 (JObj []))) raw_logged_in).2
  = inl (Error "API Error") /\
  (ApiFlat.request "/api/tasks/t9" no_options
     (page "/pages/dashboard.html"
        (json_response 404 (JObj [("message", JStr "Task not found")]))) raw_logged_in).2
  = inl (Error "API Error").
Proof.
  split; [|split; [|split]].
  - split; [reflexivity|]. split; [reflexivity|]. split; [vm_compute; reflexivity|].
    split; [reflexivity|]. vm_compute. reflexivity.
  - split; [reflexivity|]. vm_compute. reflexivity.
  - vm_compute. reflexivity.
  - vm_compute. reflexivity.
Qed.

(** The same on a failure with an empty text body, wrapped as
    [{ message: "" }]: the error carries the generic message. *)
Example empty_text_gets_generic_message :
  body_data (text_response 500 "") = Some (JObj [("message", JStr "")]) /\
  (request "/api/tasks" GET (page "/pages/dashboard.html" (text_response 500 "")) logged_in).2
  = inl (Error "HTTP error! status: 500").
Proof. split; [reflexivity|]. vm_compute. reflexivity. Qed.

(** A body with only [msg] gets the generic message too. *)
Example msg_is_not_consulted :
  (request "/api/tasks" GET
     (page "/pages/dashboard.html" (json_response 400 (JObj [("msg", JStr "Bad input")])))
     logged_in).2
  = inl (Error "HTTP error! status: 400").
Proof. vm_compute. reflexivity. Qed.

(** A body that is the JSON value [null] has no fields to read: the
    call rejects with the [TypeError] of the property access. *)
Example null_body_raises_TypeError :
  (request "/api/tasks" GET
     (page "/pages/dashboard.html" (json_response 500 JNull)) logged_in).2
  = inl (TypeError "Cannot read properties of null (reading 'message')").
Proof. vm_compute. reflexivity. Qed.

Lemma failure_message_witness :
  (request "/api/tasks/t9" GET
     (page "/pages/dashboard.html"
        (json_response 404 (JObj [("message", JStr "Task not found")])))
     logged_in).2
    = inl (Error "Task not found") /\
  (ApiRaw.request "/api/tasks/t9" GET
     (page "/pages/dashboard.html"
        (json_response 404 (JObj [("message", JStr "Task not found")])))
     logged_in).2
    = inl (Error "Task not found") /\
  (ApiFlat.request "/api/tasks/t9" GET
     (page "/pages/dashboard.html"
        (json_response 404 (JObj [("message", JStr "Task not found")])))
     logged_in).2
    = inl (Error "API Error").
Proof.
  destruct (Gateway.failure_message
              (page "/pages/dashboard.html"
                 (json_response 404 (JObj [("message", JStr "Task not found")])))
              logged_in "/api/tasks/t9" GET
              (json_response 404 (JObj [("message", JStr "Task not found")]))
              (JObj [("message", JStr "Task not found")]))
    as (Hjs & Hraw & Hflat); [reflexivity|].
  split; [|split].
  - apply (Hjs eq_refl) with (m := Some (JStr "Task not found")) (e := None);
      [vm_compute; reflexivity|reflexivity|reflexivity].
  - apply (Hraw eq_refl) with (m := None) (e := Some (JStr "Task not found"));
      [vm_compute; reflexivity|reflexivity|reflexivity].
  - apply (Hflat eq_refl) with (m := None); [vm_compute; reflexivity|reflexivity].
Defined.

Lemma session_opened_witness :
  ((login credentials (page "/pages/login.html" (json_response 200 session)) logged_out).2
     = inr session /\
   localStorage (login credentials (page "/pages/login.html" (json_response 200 session))
                   logged_out).1 !! "auth_token" = Some "abc123") /\
  ((ApiFlat.loginUser credentials (page "/pages/login.html" (json_response 200 session))
      logged_out).2 = inr session /\
   localStorage (ApiFlat.loginUser credentials
                   (page "/pages/login.html" (json_response 200 session))
                   logged_out).1 !! "token" = Some "abc123").
Proof.
  destruct (Facade.session_opened Login
              (page "/pages/login.html" (json_response 200 session)) logged_out
              credentials (json_response 200 session) session "abc123")
    as [Hjs Hflat].
  - reflexivity.
  - reflexivity.
  - apply String.eqb_neq. reflexivity.
  - split.
    + destruct Hjs as (Hret & Htok & _); [reflexivity|vm_compute; reflexivity|].
      split; [exact Hret|exact Htok].
    + destruct Hflat as (Hret & Htok & _); [reflexivity|vm_compute; reflexivity|].
      split; [exact Hret|exact Htok].
Defined.

(** The function-per-endpoint revision on a response that carries a token
    and a profile: [loginUser] caches no profile, and [registerUser]
    stores nothing. *)
Lemma flat_revision_stores_less :
  get_prop session "token" = inr (Some (JStr "abc123")) /\
  get_prop session "user" = inr (Some (JObj [("name", JStr "Ann")])) /\
  ((ApiFlat.loginUser credentials (page "/pages/login.html" (json_response 200 session))
      logged_out).2 = inr session /\
   localStorage (ApiFlat.loginUser credentials
                   (page "/pages/login.html" (json_response 200 session))
                   logged_out).1 !! "current_user" = None) /\
  ((ApiFlat.registerUser credentials
      (page "/pages/register.html" (json_response 201 session)) logged_out).2
     = inr session /\
   localStorage (ApiFlat.registerUser credentials
                   (page "/pages/register.html" (json_response 201 session))
                   logged_out).1 = ∅).
Proof.
  split; [reflexivity|]. split; [reflexivity|].
  split; split; vm_compute; reflexivity.
Qed.

(** The dashboard page opened without a credential: two navigations are
    asked for, the guard's and the dashboard script's own. *)
Lemma guard_halts_only_its_script_witness :
  AuthGuard.guard (offline_page "/pages/dashboard.html") logged_out
    = (log (ENavigate "/pages/login.html") logged_out,
       inl (Error "Authentication required")) /\
  navigations (events (Page.run_scripts Page.dashboard
                         (offline_page "/pages/dashboard.html") logged_out))
    = ["/pages/login.html"; "login.html"].
Proof.
  destruct (Guard.guard_halts_only_its_script
              (offline_page "/pages/dashboard.html") logged_out) as (Hguard & _ & Hpage).
  - reflexivity.
  - reflexivity.
  - split; [exact Hguard|]. rewrite Hpage. reflexivity.
Defined.

Lemma guard_allows_public_witness :
  AuthGuard.guard (offline_page "/pages/login.html") logged_out =
  (log (EConsoleLog "Authentication verified") logged_out, inr tt).
Proof.
  apply (Guard.guard_allows_public (offline_page "/pages/login.html") logged_out "/login.html").
  - left. reflexivity.
  - left. reflexivity.
Defined.

Lemma trailing_slash_is_public_witness :
  AuthGuard.isPublicPage "/pages/" = true /\
  AuthGuard.guard (offline_page "/pages/") logged_out =
  (log (EConsoleLog "Authentication verified") logged_out, inr tt).
Proof.
  apply (Guard.trailing_slash_is_public (offline_page "/pages/") logged_out "/pages").
  reflexivity.
Defined.

(** Posting the task of the specification's example with a stored
    token: one request with the encoded task as body and the bearer
    header, and the created task returned as parsed. *)
Example post_task_scenario :
  (request "/api/tasks" (POST task)
     (page "/pages/create-task.html" (json_response 201 created_task)) logged_in).2
  = inr created_task /\
  fetched (events (request "/api/tasks" (POST task)
                     (page "/pages/create-task.html" (json_response 201 created_task))
                     logged_in).1)
  = [ {| url := "https://workbackend-egr6.onrender.com/api/tasks";
         method := Some "POST";
         headers := <[ "Authorization" := "Bearer t0k3n" ]>
                      {[ "Content-Type" := "application/json" ]};
         body := Some (stringify task) |} ].
Proof. split; vm_compute; reflexivity. Qed.

(** Under the reference codec the round trip holds for every payload:
    whatever is posted to an echoing server comes back as posted. *)
Theorem reference_echo_round_trip p st endpoint payload :
  (request endpoint (POST payload) (echo_page p) st).2 = inr payload.
Proof.
  rewrite (ApiJsRun.request_ok (echo_page p) st endpoint (POST payload)
             {| status := 200; content_type := Some "application/json";
                text := stringify payload |} payload).
  - reflexivity.
  - reflexivity.
  - reflexivity.
  - apply RefJSONFacts.parse_stringify.
Qed.

(** The other revisions, at the same inputs. The raw-token [request]
    redirects on every 401, also on a page named [/login.html]; its
    [register] stores the token, while [registerUser] of the
    function-per-endpoint revision stores nothing. *)
Example raw_request_redirects_everywhere :
  navigations (events (ApiRaw.request "/api/auth/login" (ApiRaw.POST credentials)
                         (page "/login.html" token_expired) logged_out).1)
  = ["/pages/login.html"].
Proof. vm_compute. reflexivity. Qed.

Example raw_register_stores_token :
  localStorage (ApiRaw.register credentials
                  (page "/pages/register.html" (json_response 201 session)) logged_out).1
    !! "token" = Some "abc123".
Proof. vm_compute. reflexivity. Qed.

Example raw_request_prefers_msg :
  (ApiRaw.request "/api/tasks" no_options
     (page "/pages/dashboard.html"
        (json_response 400 (JObj [("message", JStr "B"); ("msg", JStr "A")])))
     logged_out).2
  = inl (Error "A") /\
  (ApiRaw.request "/api/tasks" no_options
     (page "/pages/dashboard.html" (json_response 500 (JObj []))) logged_out).2
  = inl (Error "API Error").
Proof. split; vm_compute; reflexivity. Qed.

(** A 2xx answer that declares no JSON content type: the raw-token
    [request] rejects it and wraps nothing. *)
Lemma raw_request_rejects_text_bodies :
  status (text_response 200 "OK") = 200%Z /\
  ~ json_content_type (text_response 200 "OK") /\
  raw_answers (page "/pages/dashboard.html" (text_response 200 "OK")) logged_out
              "/api/tasks" no_options (text_response 200 "OK") /\
  (ApiRaw.request "/api/tasks" no_options
     (page "/pages/dashboard.html" (text_response 200 "OK")) logged_out).2
  = inl (SyntaxError "Unexpected token in JSON").
Proof.
  split; [reflexivity|]. split.
  - intros Hct. apply RevisionsRun.declares_json_spec in Hct. discriminate Hct.
  - split; [reflexivity|]. vm_compute. reflexivity.
Qed.

(** [src/js/api.js] keeps the token under [auth_token] while the guard
    looks under [token]: right after a login through [apiService] the
    guard still sends a protected page to the login page. *)
Example guard_does_not_see_auth_token :
  AuthGuard.guard (offline_page "/pages/dashboard.html")
    (login credentials (page "/pages/login.html" (json_response 200 session)) logged_out).1
  = blocked
      (login credentials (page "/pages/login.html" (json_response 200 session)) logged_out).1.
Proof. vm_compute. reflexivity. Qed.

Example flat_registerUser_stores_nothing :
  localStorage (ApiFlat.registerUser credentials
                  (page "/pages/register.html" (json_response 201 session)) logged_out).1
  = ∅.
Proof. vm_compute. reflexivity. Qed.

End Checks.

(** ** More on [src/js/api.js]: what [request] leaves alone *)
Module GatewayFrame.
Import ApiJs ApiJsRest Spec ApiJsRun.
Section frame.
Context `{JSON_codec}.

(** Every run of [request] is one of four: the network failed, the body
    could not be read, the call succeeded, or it failed with a status. *)
Lemma request_cases env st endpoint options :
  (exists e,
     server env (events st) (outgoing st endpoint options) = inl e /\
     request endpoint options env st =
     (log (EConsoleError "API request failed:" e) (sent st endpoint options), inl e)) \/
  (exists resp,
     answers env st endpoint options resp /\ body_data resp = None /\
     request endpoint options env st =
     (log (EConsoleError "API request failed:" (SyntaxError "Unexpected token in JSON"))
          (sent st endpoint options),
      inl (SyntaxError "Unexpected token in JSON"))) \/
  (exists resp data,
     answers env st endpoint options resp /\ body_data resp = Some data /\
     ok resp = true /\
     request endpoint options env st = (sent st endpoint options, inr data)) \/
  (exists resp data e,
     answers env st endpoint options resp /\ body_data resp = Some data /\
     ok resp = false /\
     request endpoint options env st =
     (log (EConsoleError "API request failed:" e)
          (if (status resp =? 401)%Z
           then purged env (sent st endpoint options)
           else sent st endpoint options),
      inl e)).
Proof.
  destruct (server env (events st) (outgoing st endpoint options)) as [e|resp] eqn:Hans.
  - left. exists e. split; [reflexivity|]. apply request_offline. exact Hans.
  - right. destruct (body_data resp) as [data|] eqn:Hbody.
    + right. destruct (ok resp) eqn:Hok.
      * left. exists resp, data. repeat split; try assumption.
        apply (request_ok _ _ _ _ _ _ Hans Hok Hbody).
      * right. destruct (failure_tail data (status resp)) as [e He].
        exists resp, data, e. repeat split; try assumption.
        apply (request_not_ok _ _ _ _ _ _ _ Hans Hok Hbody He).
    + left. exists resp. repeat split; try assumption.
      apply (request_unreadable _ _ _ _ _ Hans Hbody).
Qed.

(** X1. Whatever the network does, [request] writes nothing to
    [localStorage]: every entry is as before, except that [auth_token]
    and [current_user] may have been removed. *)
Theorem request_writes_nothing env st endpoint options key :
  localStorage (request endpoint options env st).1 !! key = localStorage st !! key \/
  (localStorage (request endpoint options env st).1 !! key = None /\
   (key = "auth_token" \/ key = "current_user")).
Proof.
  destruct (request_cases env st endpoint options)
    as [(e & _ & ->)|[(resp & _ & _ & ->)|[(resp & data & _ & _ & _ & ->)
       |(resp & data & e & _ & _ & _ & ->)]]]; cbn [fst];
    try (left; reflexivity).
  destruct (status resp =? 401)%Z; [|left; reflexivity].
  cbn [log localStorage]. rewrite purged_storage. cbn [sent log localStorage].
  destruct (decide (key = "current_user")) as [->|Hu].
  - right. split; [apply lookup_delete_eq|right; reflexivity].
  - rewrite lookup_delete_ne by done.
    destruct (decide (key = "auth_token")) as [->|Ht].
    + right. split; [apply lookup_delete_eq|left; reflexivity].
    + left. rewrite lookup_delete_ne by done. reflexivity.
Qed.

(** X2. Unless the call is answered with status 401, the session is out
    of reach: [localStorage] and the requested navigations are the same
    after the call as before, and a network failure comes back to the
    caller as the very error [fetch] rejected with. *)
Theorem request_session_changes_only_on_401 env st endpoint options :
  (forall resp, answers env st endpoint options resp -> status resp <> 401%Z) ->
  localStorage (request endpoint options env st).1 = localStorage st /\
  navigations (events (request endpoint options env st).1) = navigations (events st) /\
  (forall e, server env (events st) (outgoing st endpoint options) = inl e ->
     (request endpoint options env st).2 = inl e).
Proof.
  intros Hnot.
  destruct (request_cases env st endpoint options)
    as [(e & He & ->)|[(resp & Hans & _ & ->)|[(resp & data & Hans & _ & _ & ->)
       |(resp & data & e & Hans & _ & _ & ->)]]]; cbn [fst snd].
  - split; [reflexivity|]. split.
    + rewrite navigations_log_console. apply navigations_log_fetch.
    + intros e' He'. rewrite He in He'. injection He' as ->. reflexivity.
  - split; [reflexivity|]. split.
    + rewrite navigations_log_console. apply navigations_log_fetch.
    + intros e' He'. unfold answers in *. congruence.
  - split; [reflexivity|]. split.
    + apply navigations_log_fetch.
    + intros e' He'. unfold answers in *. congruence.
  - specialize (Hnot resp Hans). apply Z.eqb_neq in Hnot. rewrite Hnot.
    split; [reflexivity|]. split.
    + rewrite navigations_log_console. apply navigations_log_fetch.
    + intros e' He'. unfold answers in *. congruence.
Qed.

(** X3. The headers [request] sends: the caller's [Content-Type] wins
    over the JSON default; a stored non-empty token wins over the
    caller's [Authorization]; without one the caller's [Authorization],
    if any, goes out as passed; every other header is the caller's. *)
Theorem request_headers_precedence (token : option string) options :
  request_headers token options !! "Content-Type"
    = Some (default "application/json" (opt_headers options !! "Content-Type")) /\
  (forall t, token = Some t -> t <> "" ->
     request_headers token options !! "Authorization" = Some ("Bearer " +:+ t)) /\
  (truthy_item token = false ->
     request_headers token options !! "Authorization"
       = opt_headers options !! "Authorization") /\
  (forall name, name <> "Content-Type" -> name <> "Authorization" ->
     request_headers token options !! name = opt_headers options !! name).
Proof.
  assert (Hbase : forall name,
    (opt_headers options ∪ {[ "Content-Type" := "application/json" ]} : gmap string string)
      !! name
    = match opt_headers options !! name with
      | Some v => Some v
      | None => if decide (name = "Content-Type") then Some "application/json" else None
      end).
  { intros name. rewrite lookup_union.
    destruct (opt_headers options !! name) as [v|] eqn:Hv.
    - destruct (({[ "Content-Type" := "application/json" ]} : gmap string string) !! name);
        reflexivity.
    - destruct (decide (name = "Content-Type")) as [->|Hne].
      + rewrite lookup_singleton_eq. reflexivity.
      + rewrite lookup_singleton_ne by done. reflexivity. }
  unfold request_headers. split; [|split; [|split]].
  - destruct (truthy_item token).
    + rewrite lookup_insert_ne by done. rewrite Hbase.
      destruct (opt_headers options !! "Content-Type"); reflexivity.
    + rewrite Hbase. destruct (opt_headers options !! "Content-Type"); reflexivity.
  - intros t -> Hne. unfold truthy_item.
    destruct (String.eqb_spec t ""); [contradiction|].
    cbn [negb default]. apply lookup_insert_eq.
  - intros ->. rewrite Hbase.
    destruct (opt_headers options !! "Authorization"); reflexivity.
  - intros name Hct Hauth. destruct (truthy_item token).
    + rewrite lookup_insert_ne by done. rewrite Hbase.
      destruct (opt_headers options !! name); [reflexivity|].
      destruct (decide (name = "Content-Type")); [contradiction|reflexivity].
    + rewrite Hbase. destruct (opt_headers options !! name); [reflexivity|].
      destruct (decide (name = "Content-Type")); [contradiction|reflexivity].
Qed.

(** X4. No retry and no short circuit: with or without a token, and
    whatever the answer, [request] calls [fetch] exactly once, with the
    base address followed by the endpoint and with the caller's method
    and body untouched. *)
Theorem request_fetches_exactly_once env st endpoint options :
  fetched (events (request endpoint options env st).1) =
  fetched (events st) ++
  [ {| url := "https://workbackend-egr6.onrender.com" +:+ endpoint;
       method := opt_method options;
       headers := request_headers (localStorage st !! "auth_token") options;
       body := opt_body options |} ].
Proof.
  destruct (request_cases env st endpoint options)
    as [(e & _ & ->)|[(resp & _ & _ & ->)|[(resp & data & _ & _ & _ & ->)
       |(resp & data & e & _ & _ & _ & ->)]]]; cbn [fst];
    rewrite ?fetched_log_console;
    try (destruct (status resp =? 401)%Z; [rewrite fetched_purged|]);
    apply fetched_log_fetch.
Qed.

End frame.
End GatewayFrame.

(** ** More on [src/js/api.js]: the cached profile and the session *)
Module FacadeMore.
Import ApiJs ApiJsRest Spec ApiJsRun GatewayFrame.
Section facade.
Context `{JSON_codec}.

Lemma getProfile_after_request env st :
  getProfile env st =
  match request "/api/auth/me" GET env st with
  | (st1, inl e) => (st1, inl e)
  | (st1, inr response) =>
      match get_prop response "user" with
      | inl e => (st1, inl e)
      | inr u =>
          if truthy u || truthy (Some response)
          then ({| localStorage :=
                     <[ "current_user" :=
                          JSON_stringify (if truthy u then default JNull u else response) ]>
                       (localStorage st1);
                   events := events st1 |}, inr response)
          else (st1, inr response)
      end
  end.
Proof.
  unfold getProfile, bind at 1.
  destruct (request "/api/auth/me" GET env st) as [st1 [e|response]]; [reflexivity|].
  unfold bind at 1, lift at 1.
  destruct (get_prop response "user") as [e|u]; [reflexivity|].
  unfold bind at 1.
  destruct (truthy u || truthy (Some response)); reflexivity.
Qed.

(** X5. A successful [getProfile] returns the response and refreshes the
    cached profile from it: with [response.user] when that is truthy,
    with the whole response when it is not (any object or array, also an
    error-shaped one), and not at all when the response is a falsy value
    other than [null]. The token entry is never touched. *)
Theorem getProfile_caches env st resp data u :
  answers env st "/api/auth/me" GET resp ->
  ok resp = true ->
  body_data resp = Some data ->
  get_prop data "user" = inr u ->
  let out := getProfile env st in
  out.2 = inr data /\
  localStorage out.1 !! "auth_token" = localStorage st !! "auth_token" /\
  (forall user, u = Some user -> truthy u = true ->
     localStorage out.1 !! "current_user" = Some (JSON_stringify user)) /\
  (truthy u = false -> truthy (Some data) = true ->
     localStorage out.1 !! "current_user" = Some (JSON_stringify data)) /\
  (truthy u = false -> truthy (Some data) = false ->
     localStorage out.1 = localStorage st).
Proof.
  intros Hans Hok Hbody Hu. cbn zeta.
  rewrite getProfile_after_request, (request_ok _ _ _ _ _ _ Hans Hok Hbody), Hu.
  destruct (truthy u) eqn:Htu; cbn [orb].
  - cbn [fst snd localStorage]. split; [reflexivity|]. split.
    + rewrite lookup_insert_ne by done. reflexivity.
    + split; [|split]; try discriminate.
      intros user -> _. cbn [default]. apply lookup_insert_eq.
  - destruct (truthy (Some data)) eqn:Htd; cbn [fst snd localStorage].
    + split; [reflexivity|]. split.
      * rewrite lookup_insert_ne by done. reflexivity.
      * split; [intros ? ? ?; discriminate|]. split; [|discriminate].
        intros _ _. apply lookup_insert_eq.
    + split; [reflexivity|]. split; [reflexivity|].
      split; [intros ? ? ?; discriminate|]. split; [discriminate|].
      intros _ _. reflexivity.
Qed.

(** X6. A 2xx answer whose body is the JSON value [null] makes
    [getProfile] reject, with the [TypeError] of reading [response.user],
    and nothing is cached. *)
Theorem getProfile_null_rejects env st resp :
  answers env st "/api/auth/me" GET resp ->
  ok resp = true ->
  body_data resp = Some JNull ->
  (getProfile env st).2
    = inl (TypeError "Cannot read properties of null (reading 'user')") /\
  localStorage (getProfile env st).1 = localStorage st.
Proof.
  intros Hans Hok Hbody.
  rewrite getProfile_after_request, (request_ok _ _ _ _ _ _ Hans Hok Hbody).
  split; reflexivity.
Qed.

(** X7. What [setCurrentUser] stores, [getCurrentUser] reads back,
    wherever [JSON.parse] inverts [JSON.stringify] on the profile and the
    encoding is not the empty text. *)
Theorem current_user_round_trip env st user :
  JSON_parse (JSON_stringify user) = Some user ->
  JSON_stringify user <> "" ->
  (setCurrentUser user ;;; getCurrentUser) env st
  = ({| localStorage := <[ "current_user" := JSON_stringify user ]> (localStorage st);
        events := events st |}, inr user).
Proof.
  intros Hround Hne.
  unfold bind, setCurrentUser, setItem, getCurrentUser, bind, getItem. cbn [localStorage].
  rewrite lookup_insert_eq. unfold truthy_item.
  destruct (String.eqb_spec (JSON_stringify user) ""); [contradiction|].
  cbn. rewrite Hround. reflexivity.
Qed.

(** X8. [getCurrentUser] at its edges: with nothing cached, or the empty
    text, it answers [null]; with a cached text that does not parse it
    throws, and it changes nothing either way. *)
Theorem getCurrentUser_edges env st :
  (truthy_item (localStorage st !! "current_user") = false ->
     getCurrentUser env st = (st, inr JNull)) /\
  (forall cached, localStorage st !! "current_user" = Some cached -> cached <> "" ->
     JSON_parse cached = None ->
     getCurrentUser env st = (st, inl (SyntaxError "Unexpected token in JSON"))).
Proof.
  unfold getCurrentUser, bind, getItem. split.
  - intros ->. reflexivity.
  - intros cached -> Hne Hparse. unfold truthy_item.
    destruct (String.eqb_spec cached ""); [contradiction|].
    cbn. rewrite Hparse. reflexivity.
Qed.

(** [store_session] without a truthy token returns at once. *)
Lemma store_session_without_token response tok env st :
  get_prop response "token" = inr tok -> truthy tok = false ->
  store_session response env st = (st, inr response).
Proof.
  intros Htok Hfalse. unfold store_session, bind at 1, lift at 1.
  rewrite Htok, Hfalse. reflexivity.
Qed.



(** X9. A login or registration that succeeds without a truthy [token]
    in the response opens no session: the response is returned and
    [localStorage] is as before, also when the response has a [user]. *)
Theorem session_needs_token (op : auth_op) env st payload resp data tok :
  answers env st (auth_endpoint op) (POST payload) resp ->
  ok resp = true ->
  body_data resp = Some data ->
  get_prop data "token" = inr tok ->
  truthy tok = false ->
  (run_auth op payload env st).2 = inr data /\
  localStorage (run_auth op payload env st).1 = localStorage st.
Proof.
  intros Hans Hok Hbody Htok Hfalse.
  assert (Hrun : run_auth op payload env st
                 = (sent st (auth_endpoint op) (POST payload), inr data)).
  { rewrite run_auth_unfold. unfold bind at 1.
    rewrite (request_ok _ _ _ _ _ _ Hans Hok Hbody).
    apply (store_session_without_token _ _ _ _ Htok Hfalse). }
  rewrite Hrun. split; reflexivity.
Qed.


(** X11. [utils.isAuthenticated] and the gateway agree: for a caller who
    passes no [Authorization] header of their own, [isAuthenticated]
    answers [true] exactly when [request] would send one. *)
Theorem isAuthenticated_matches_header env st options :
  opt_headers options !! "Authorization" = None ->
  (Utils.isAuthenticated env st).2 = inr true <->
  is_Some (request_headers (localStorage st !! "auth_token") options !! "Authorization").
Proof.
  intros Hcaller. unfold Utils.isAuthenticated, bind, getItem, ret. cbn [snd].
  unfold request_headers.
  destruct (truthy_item (localStorage st !! "auth_token")) eqn:Ht.
  - rewrite lookup_insert_eq. split; [eauto|reflexivity].
  - rewrite lookup_union, Hcaller, lookup_singleton_ne by done. cbn.
    split; [discriminate|]. intros [x Hx]. discriminate Hx.
Qed.

(** X22. After a 401 whose body [request] can read, the rest of the
    page runs without a session: [isAuthenticated] answers [false],
    [getCurrentUser] answers [null], and a further request carries no
    [Authorization] header but the one its caller passes, if any. *)
Theorem unauthorized_ends_the_session env st endpoint options resp data :
  answers env st endpoint options resp ->
  status resp = 401%Z ->
  body_data resp = Some data ->
  let st' := (request endpoint options env st).1 in
  (Utils.isAuthenticated env st').2 = inr false /\
  (getCurrentUser env st').2 = inr JNull /\
  (forall endpoint' options',
     headers (outgoing st' endpoint' options') !! "Authorization"
     = opt_headers options' !! "Authorization").
Proof.
  intros Hans H401 Hbody.
  assert (Hok : ok resp = false) by (unfold ok; rewrite H401; reflexivity).
  destruct (failure_tail data (status resp)) as [e He].
  rewrite (request_not_ok _ _ _ _ _ _ _ Hans Hok Hbody He), H401.
  cbn [fst Z.eqb Pos.eqb].
  destruct (purged_no_session env (sent st endpoint options)) as [Htoken Huser].
  set (st' := log _ (purged env (sent st endpoint options))).
  assert (Ht : localStorage st' !! "auth_token" = None) by exact Htoken.
  assert (Hu : localStorage st' !! "current_user" = None) by exact Huser.
  cbn zeta. split; [|split].
  - unfold Utils.isAuthenticated, bind, getItem, ret. cbn [snd]. rewrite Ht. reflexivity.
  - unfold getCurrentUser, bind, getItem. rewrite Hu. reflexivity.
  - intros endpoint' options'. unfold outgoing. cbn [headers]. rewrite Ht.
    unfold request_headers. cbn [truthy_item].
    rewrite lookup_union.
    destruct (opt_headers options' !! "Authorization") as [v|] eqn:Hv.
    + rewrite lookup_singleton_ne by done. reflexivity.
    + rewrite lookup_singleton_ne by done. reflexivity.
Qed.

End facade.
End FacadeMore.

(** ** The raw-token revisions *)
Module Variants.
Import RawSpec Spec ApiJsRun RevisionsRun.
Section variants.
Context `{JSON_codec}.

Lemma guard_with_token env st t :
  localStorage st !! "token" = Some t -> t <> "" ->
  AuthGuard.guard env st = passed st.
Proof.
  intros Ht Hne. rewrite Guard.guard_run, Ht. unfold truthy_item.
  destruct (String.eqb_spec t ""); [contradiction|]. reflexivity.
Qed.

(** X12. In the raw-token revision a successful login whose response
    has a non-empty string token stores it under [token], the key the
    session guard reads: from then on the guard admits every page, and
    the next request carries the token itself, without a scheme prefix,
    as its [Authorization] header. *)
Theorem raw_login_admits env st payload resp data t :
  raw_answers env st "/api/auth/login" (ApiRaw.POST payload) resp ->
  ok resp = true ->
  JSON_parse (text resp) = Some data ->
  get_prop data "token" = inr (Some (JStr t)) ->
  t <> "" ->
  let out := ApiRaw.login payload env st in
  out.2 = inr data /\
  localStorage out.1 !! "token" = Some t /\
  (forall env', AuthGuard.guard env' out.1
                = (log (EConsoleLog "Authentication verified") out.1, inr tt)) /\
  (forall endpoint options,
     headers (raw_outgoing out.1 endpoint options) !! "Authorization" = Some t).
Proof.
  intros Hans Hok Hparse Htok Hne.
  assert (Hrun : ApiRaw.login payload env st
    = ({| localStorage :=
            <[ "token" := t ]>
              (localStorage (raw_sent st "/api/auth/login" (ApiRaw.POST payload)));
          events := events (raw_sent st "/api/auth/login" (ApiRaw.POST payload)) |},
       inr data)).
  { unfold ApiRaw.login, bind at 1.
    rewrite (raw_request_ok _ _ _ _ _ _ Hans Hparse Hok).
    unfold ApiRaw.store_token, bind at 1, lift at 1. rewrite Htok.
    unfold truthy. destruct (String.eqb_spec t ""); [contradiction|]. reflexivity. }
  cbn zeta. rewrite Hrun. cbn [fst snd].
  assert (Hstored : forall evs,
    localStorage {| localStorage :=
                      <[ "token" := t ]>
                        (localStorage (raw_sent st "/api/auth/login" (ApiRaw.POST payload)));
                    events := evs |} !! "token" = Some t)
    by (intros evs; apply lookup_insert_eq).
  split; [reflexivity|]. split; [apply Hstored|]. split.
  - intros env'. apply (guard_with_token env' _ t); [apply Hstored|exact Hne].
  - intros endpoint options. unfold raw_outgoing, ApiRaw.request_headers.
    cbn [headers]. rewrite Hstored. unfold truthy_item.
    destruct (String.eqb_spec t ""); [contradiction|].
    cbn. apply lookup_insert_eq.
Qed.

(** X13. In the raw-token revision every 401 with a JSON body rejects,
    removes the token and asks for the login page, on whatever page it
    arrives, the login page included; afterwards the guard blocks every
    page outside its allow-list. *)
Theorem raw_unauthorized env st endpoint options resp data :
  raw_answers env st endpoint options resp ->
  status resp = 401%Z ->
  JSON_parse (text resp) = Some data ->
  let out := ApiRaw.request endpoint options env st in
  rejected out.2 /\
  localStorage out.1 !! "token" = None /\
  navigations (events out.1) = navigations (events st) ++ ["/pages/login.html"] /\
  (forall env', AuthGuard.isPublicPage (pathname env') = false ->
     AuthGuard.guard env' out.1
     = (log (ENavigate "/pages/login.html") out.1, inl (Error "Authentication required"))).
Proof.
  intros Hans H401 Hparse.
  assert (Hok : ok resp = false) by (unfold ok; rewrite H401; reflexivity).
  destruct (raw_failure_tail data) as [e He].
  cbn zeta. rewrite (raw_request_not_ok _ _ _ _ _ _ _ Hans Hparse Hok He).
  rewrite H401. cbn [Z.eqb Pos.eqb fst snd].
  assert (Hgone : localStorage (raw_purged (raw_sent st endpoint options)) !! "token" = None)
    by apply lookup_delete_eq.
  split; [exists e; reflexivity|]. split; [exact Hgone|]. split.
  - unfold raw_purged, raw_sent, navigations, log. cbn [events].
    rewrite !omap_app. cbn. rewrite app_nil_r. reflexivity.
  - intros env' Hpub. rewrite Guard.guard_run, Hgone, Hpub. reflexivity.
Qed.

(** X14. The raw-token [request] reads every body as JSON: an answer
    whose body does not parse rejects with the parse error whatever its
    status, 2xx and 401 included, and neither the token nor the location
    is touched. *)
Theorem raw_unreadable_body env st endpoint options resp :
  raw_answers env st endpoint options resp ->
  JSON_parse (text resp) = None ->
  let out := ApiRaw.request endpoint options env st in
  out.2 = inl (SyntaxError "Unexpected token in JSON") /\
  localStorage out.1 = localStorage st /\
  navigations (events out.1) = navigations (events st).
Proof.
  intros Hans Hparse.
  assert (Hrun : ApiRaw.request endpoint options env st
                 = (raw_sent st endpoint options,
                    inl (SyntaxError "Unexpected token in JSON"))).
  { rewrite (raw_request_answered _ _ _ _ _ Hans).
    unfold bind at 1, response_json. rewrite Hparse. reflexivity. }
  cbn zeta. rewrite Hrun. cbn [fst snd].
  split; [reflexivity|]. split; [reflexivity|].
  unfold raw_sent, navigations, log. cbn [events].
  rewrite omap_app. cbn. apply app_nil_r.
Qed.

(** X15. The error of the raw-token [request] on a non-2xx answer with
    a JSON body other than [null]: [data.msg] when truthy, else
    [data.message] when truthy, else the fixed text ["API Error"], which
    does not name the status. *)
Theorem raw_failure_message env st endpoint options resp data m e :
  raw_answers env st endpoint options resp ->
  ok resp = false ->
  JSON_parse (text resp) = Some data ->
  get_prop data "msg" = inr m ->
  get_prop data "message" = inr e ->
  let result := (ApiRaw.request endpoint options env st).2 in
  (forall v s, m = Some v -> truthy m = true -> ToString v = inr s ->
     result = inl (Error s)) /\
  (forall v s, truthy m = false -> e = Some v -> truthy e = true -> ToString v = inr s ->
     result = inl (Error s)) /\
  (truthy m = false -> truthy e = false -> result = inl (Error "API Error")).
Proof.
  intros Hans Hok Hparse Hm He. cbn zeta.
  assert (Hrun : forall x,
    (forall env' st',
       (v <- ApiRaw.error_message data ;; e <- new_Error v ;; throw e : M json) env' st'
       = (st', inl x)) ->
    (ApiRaw.request endpoint options env st).2 = inl x).
  { intros x Hx. rewrite (raw_request_not_ok _ _ _ _ _ _ _ Hans Hparse Hok Hx).
    reflexivity. }
  split; [|split].
  - intros v s -> Ht Hs. apply Hrun. intros env' st'.
    unfold ApiRaw.error_message, bind at 1, bind at 1, lift at 1.
    rewrite Hm. rewrite (or_else_truthy _ v) by done.
    unfold ret at 1, new_Error, bind, lift. rewrite Hs. reflexivity.
  - intros v s Hf -> Ht Hs. apply Hrun. intros env' st'.
    unfold ApiRaw.error_message, bind at 1, bind at 1, lift at 1.
    rewrite Hm. rewrite or_else_falsy by done.
    unfold bind at 1, lift at 1. rewrite He. rewrite (or_else_truthy _ v) by done.
    unfold ret at 1, new_Error, bind, lift. rewrite Hs. reflexivity.
  - intros Hf Hf'. apply Hrun. intros env' st'.
    unfold ApiRaw.error_message, bind at 1, bind at 1, lift at 1.
    rewrite Hm. rewrite or_else_falsy by done.
    unfold bind at 1, lift at 1. rewrite He. rewrite or_else_falsy by done.
    reflexivity.
Qed.

(** X16. In the function-per-endpoint revision a successful
    [registerUser] hands the response back and stores nothing, whether or
    not the response carries a token. *)
Theorem registerUser_stores_nothing env st payload resp data :
  server env (events st)
    {| url := ApiRaw.API_BASE +:+ "/api/auth/register"; method := Some "POST";
       headers := ApiRaw.request_headers (localStorage st !! "token") (ApiRaw.POST payload);
       body := Some (JSON_stringify payload) |} = inr resp ->
  ok resp = true ->
  JSON_parse (text resp) = Some data ->
  (ApiFlat.registerUser payload env st).2 = inr data /\
  localStorage (ApiFlat.registerUser payload env st).1 = localStorage st.
Proof.
  intros Hans Hok Hparse.
  assert (Hrun : ApiFlat.registerUser payload env st
    = (log (EFetch
              {| url := ApiRaw.API_BASE +:+ "/api/auth/register"; method := Some "POST";
                 headers := ApiRaw.request_headers (localStorage st !! "token")
                              (ApiRaw.POST payload);
                 body := Some (JSON_stringify payload) |}) st, inr data)).
  { unfold ApiFlat.registerUser, ApiFlat.request, bind at 1, ApiFlat.getToken, getItem.
    cbn beta iota. unfold bind at 1, fetch. cbn beta iota.
    cbn [ApiRaw.POST opt_method opt_body]. rewrite Hans.
    unfold bind at 1, response_json. rewrite Hparse, Hok. reflexivity. }
  rewrite Hrun. split; reflexivity.
Qed.

End variants.
End Variants.

(** ** More on the session guard and the page checks *)
Module GuardMore.
Import AuthGuard Spec StringFacts PathSpec.

Lemma match_is_suffix (p page : string) :
  endsWith p page || String.eqb p page = endsWith p page.
Proof.
  destruct (String.eqb_spec p page) as [->|_].
  - rewrite endsWith_refl. reflexivity.
  - apply orb_false_r.
Qed.

Lemma isPublicPage_suffixes p :
  isPublicPage p = existsb (fun page => endsWith p page) ApiRaw.publicPages.
Proof.
  unfold isPublicPage, publicPages, ApiRaw.publicPages. cbn [existsb].
  rewrite !match_is_suffix. reflexivity.
Qed.

(** X17. The guard of [auth-guard.js] and [requireAuth] of the raw-token
    revision decide alike on every path and every [localStorage]: either
    both ask for the login page (the guard throwing, [requireAuth]
    returning [false]) or neither does ([requireAuth] returning [true]). *)
Theorem guard_agrees_with_requireAuth `{JSON_codec} env st :
  (guard env st
     = (log (ENavigate "/pages/login.html") st, inl (Error "Authentication required")) /\
   ApiRaw.requireAuth env st = (log (ENavigate "/pages/login.html") st, inr false)) \/
  (guard env st = (log (EConsoleLog "Authentication verified") st, inr tt) /\
   ApiRaw.requireAuth env st = (st, inr true)).
Proof.
  rewrite Guard.guard_run.
  unfold ApiRaw.requireAuth, bind, ApiRaw.getToken, getItem, location_pathname.
  cbn beta iota. rewrite <- isPublicPage_suffixes.
  destruct (negb (truthy_item (localStorage st !! "token"))
            && negb (isPublicPage (pathname env)));
    [left|right]; split; reflexivity.
Qed.

(** X18. The checks at the top of the login and dashboard scripts never
    send a visitor back and forth: for every [localStorage] exactly one
    of them navigates, and when the login script forwards to the
    dashboard the guard admits every page. *)
Theorem entry_checks_do_not_loop env st :
  (navigations (events (Pages.login_entry env st).1)
     = navigations (events st) ++ ["dashboard.html"] /\
   navigations (events (Pages.dashboard_entry env st).1) = navigations (events st) /\
   forall env', guard env' st = (log (EConsoleLog "Authentication verified") st, inr tt)) \/
  (navigations (events (Pages.login_entry env st).1) = navigations (events st) /\
   navigations (events (Pages.dashboard_entry env st).1)
     = navigations (events st) ++ ["login.html"]).
Proof.
  unfold Pages.login_entry, Pages.dashboard_entry, bind, getItem. cbn beta iota.
  destruct (truthy_item (localStorage st !! "token")) eqn:Htok; [left|right];
    cbn [negb fst]; unfold set_location_href, ret, navigations, log; cbn [fst events];
    rewrite ?omap_app; cbn [omap]; repeat split.
  intros env'. rewrite Guard.guard_run, Htok. reflexivity.
Qed.

(** *** The allow-list by file name *)
Lemma has_char_app c a b : has_char c (a +:+ b) = has_char c a || has_char c b.
Proof.
  induction a as [|d a IH]; [reflexivity|].
  rewrite app_cons. cbn [has_char]. rewrite IH. apply orb_assoc.
Qed.

Lemma last_slash s :
  has_char "/" s = true ->
  exists dir name, s = dir +:+ String "/" name /\ has_char "/" name = false.
Proof.
  induction s as [|c s IH]; [discriminate|]. cbn [has_char]. intros Hs.
  destruct (has_char "/" s) eqn:Hrest.
  - destruct (IH eq_refl) as (dir & name & -> & Hname).
    exists (String c dir), name. split; [reflexivity|exact Hname].
  - rewrite orb_false_r in Hs. apply Ascii.eqb_eq in Hs. subst c.
    exists "", s. split; [reflexivity|exact Hrest].
Qed.

Lemma last_slash_unique dir : forall dir' name name',
  has_char "/" name = false -> has_char "/" name' = false ->
  dir +:+ String "/" name = dir' +:+ String "/" name' ->
  name = name'.
Proof.
  induction dir as [|c dir IH]; intros dir' name name' Hn Hn' E.
  - destruct dir' as [|c' dir'].
    + rewrite !app_empty in E. injection E as ->. reflexivity.
    + rewrite app_empty, app_cons in E. injection E as _ ->.
      rewrite has_char_app in Hn. cbn in Hn. rewrite orb_true_r in Hn. discriminate Hn.
  - destruct dir' as [|c' dir'].
    + rewrite app_empty, app_cons in E. injection E as _ <-.
      rewrite has_char_app in Hn'. cbn in Hn'. rewrite orb_true_r in Hn'.
      discriminate Hn'.
    + rewrite !app_cons in E. injection E as _ E. apply (IH _ _ _ Hn Hn' E).
Qed.

Lemma split_slash_free name :
  has_char "/" name = false -> Utils.split "/" name = [name].
Proof.
  induction name as [|c name IH]; [reflexivity|]. cbn [has_char Utils.split].
  intros Hn. apply orb_false_iff in Hn as [Hc Hn]. rewrite Hc, (IH Hn). reflexivity.
Qed.

Lemma split_last_piece dir : forall name,
  has_char "/" name = false ->
  exists piece pieces,
    Utils.split "/" (dir +:+ String "/" name) = (piece :: pieces) ++ [name].
Proof.
  induction dir as [|c dir IH]; intros name Hn.
  - rewrite app_empty. cbn [Utils.split]. change (Ascii.eqb "/" "/") with true.
    cbn iota. rewrite (split_slash_free _ Hn). exists "", []. reflexivity.
  - rewrite app_cons. cbn [Utils.split].
    destruct (IH name Hn) as (piece & pieces & ->).
    destruct (Ascii.eqb c "/").
    + exists "", (piece :: pieces). reflexivity.
    + exists (String c piece), pieces. reflexivity.
Qed.

Lemma pop_split dir name :
  has_char "/" name = false ->
  Utils.pop (Utils.split "/" (dir +:+ String "/" name)) = name.
Proof.
  intros Hn. destruct (split_last_piece dir name Hn) as (piece & pieces & ->).
  unfold Utils.pop. apply last_last.
Qed.

Lemma endsWith_file dir name n :
  has_char "/" name = false -> has_char "/" n = false ->
  endsWith (dir +:+ String "/" name) (String "/" n) = String.eqb name n.
Proof.
  intros Hname Hn. destruct (String.eqb_spec name n) as [->|Hne].
  - apply endsWith_spec. exists dir. reflexivity.
  - destruct (endsWith (dir +:+ String "/" name) (String "/" n)) eqn:He; [|reflexivity].
    apply endsWith_spec in He as [pre He].
    apply last_slash_unique in He; [contradiction|assumption|assumption].
Qed.

(** X19. For every path that begins with [/], the guard's allow-list
    test comes down to the file name: the path is public exactly when its
    last segment, what [path.split('/').pop()] yields, is [login.html],
    [register.html], [index.html] or empty. *)
Theorem public_by_file_name rest :
  isPublicPage (String "/" rest) = true <->
  In (Utils.pop (Utils.split "/" (String "/" rest))) public_names.
Proof.
  destruct (last_slash (String "/" rest) eq_refl) as (dir & name & E & Hname).
  rewrite E, (pop_split dir name Hname).
  unfold isPublicPage, publicPages, public_names. cbn [existsb In].
  rewrite !match_is_suffix.
  rewrite !(endsWith_file dir name _ Hname) by reflexivity.
  rewrite orb_false_r, !orb_true_iff, !String.eqb_eq.
  split.
  - intros [->|[->|[->| ->]]]; tauto.
  - intros [<-|[<-|[<-|[<-|[]]]]]; tauto.
Qed.

End GuardMore.

(** ** [src/js/utils.js] *)
Module UtilsFacts.
Import Utils StringFacts PathSpec FormatSpec GuardMore.

Lemma length_substring_0 (k : nat) : forall s : string,
  k <= String.length s -> String.length (substring 0 k s) = k.
Proof.
  induction k as [|k IH]; intros s Hk.
  - destruct s; reflexivity.
  - destruct s as [|c s]; cbn in Hk; [lia|].
    cbn [substring String.length]. rewrite IH by lia. reflexivity.
Qed.

(** X20. [truncateText] returns a text that fits unchanged; of a longer
    one it keeps exactly the first [length] code units and appends three
    dots, so the result is [length + 3] long, which is longer than the
    text itself when the text is over by one or two. *)
Theorem truncateText_keeps_prefix text (length : Z) :
  (0 <= length)%Z ->
  ((Z.of_nat (String.length text) <= length)%Z -> truncateText text length = text) /\
  ((length < Z.of_nat (String.length text))%Z ->
     exists kept dropped,
       text = kept +:+ dropped /\
       String.length kept = Z.to_nat length /\
       truncateText text length = kept +:+ "..." /\
       String.length (truncateText text length) = Z.to_nat length + 3).
Proof.
  intros Hpos. unfold truncateText. split.
  - intros Hfits. apply Z.leb_le in Hfits. rewrite Hfits, orb_true_r. reflexivity.
  - intros Hlong.
    assert (Hne : String.eqb text "" = false).
    { apply String.eqb_neq. intros ->. cbn in Hlong. lia. }
    assert (Hleb : (Z.of_nat (String.length text) <=? length)%Z = false)
      by (apply Z.leb_gt; exact Hlong).
    rewrite Hne, Hleb. cbn [orb].
    assert (Hk : Z.to_nat length <= String.length text) by lia.
    exists (substring 0 (Z.to_nat length) text),
           (substring (Z.to_nat length) (String.length text - Z.to_nat length) text).
    split; [symmetry; apply substring_split; exact Hk|].
    split; [apply length_substring_0; exact Hk|].
    split; [reflexivity|].
    rewrite length_app, length_substring_0 by exact Hk. reflexivity.
Qed.

Lemma remove_extension name :
  has_char "." name = false -> remove_first ".html" (name +:+ ".html") = name.
Proof.
  induction name as [|c name IH]; [reflexivity|].
  cbn [has_char]. intros Hn. apply orb_false_iff in Hn as [Hc Hn].
  rewrite app_cons. cbn [remove_first String.prefix].
  destruct (ascii_dec "." c) as [<-|_]; [discriminate Hc|].
  rewrite (IH Hn). reflexivity.
Qed.

(** X21. [getCurrentPage] names the page file without its extension:
    for a path [dir/name.html], with [name] not empty and free of [/] and
    [.], it yields [name]; for a path that ends in [/], the site root
    included, it yields the default ["dashboard"]. *)
Theorem currentPage_names_the_file dir :
  (forall name,
     has_char "/" name = false -> has_char "." name = false -> name <> "" ->
     currentPage (dir +:+ String "/" (name +:+ ".html")) = name) /\
  currentPage (dir +:+ "/") = "dashboard".
Proof.
  unfold currentPage. split.
  - intros name Hslash Hdot Hne.
    rewrite pop_split by (rewrite has_char_app, Hslash; reflexivity).
    rewrite (remove_extension _ Hdot).
    destruct (String.eqb_spec name ""); [contradiction|reflexivity].
  - rewrite (pop_split dir "" eq_refl). reflexivity.
Qed.

Lemma triples_digits (n : nat) : forall s,
  String.length s <= n -> all_digits s = true ->
  triples s = (0 <? String.length s) && (String.length s mod 3 =? 0).
Proof.
  induction n as [|n IH]; intros s Hlen Hall.
  - destruct s; [reflexivity|cbn in Hlen; lia].
  - destruct s as [|a [|b [|c rest]]]; try reflexivity.
    cbn [all_digits] in Hall.
    apply andb_true_iff in Hall as [Ha Hall].
    apply andb_true_iff in Hall as [Hb Hall].
    apply andb_true_iff in Hall as [Hc Hall].
    cbn [triples]. rewrite Ha, Hb, Hc. cbn [andb].
    cbn [String.length] in Hlen. rewrite (IH rest) by (lia || exact Hall).
    cbn [String.length].
    replace (S (S (S (String.length rest)))) with (String.length rest + 1 * 3) by lia.
    rewrite Nat.Div0.mod_add.
    destruct rest as [|d rest]; [reflexivity|].
    cbn [all_digits] in Hall. apply andb_true_iff in Hall as [Hd _].
    cbn [head]. rewrite Hd. cbn [negb orb String.length].
    destruct (S (String.length rest) + 1 * 3) eqn:E; [lia|reflexivity].
Qed.

Lemma triples_not_a_digit a s : is_digit a = false -> triples (String a s) = false.
Proof.
  intros Ha. destruct s as [|b [|c rest]]; try reflexivity.
  cbn [triples]. rewrite Ha. reflexivity.
Qed.

Lemma digit_is_word c : is_digit c = true -> is_word (Some c) = true.
Proof. intros Hc. cbn [is_word]. rewrite Hc. reflexivity. Qed.

(** After a word character a run of digits gets its commas by the count
    of the digits still to come. *)
Lemma commas_after_word : forall s p,
  is_word (Some p) = true -> all_digits s = true ->
  commas (Some p) s
  = (if (0 <? String.length s) && (String.length s mod 3 =? 0) then "," else "")
    +:+ group_thousands s.
Proof.
  induction s as [|c s IH]; intros p Hp Hall.
  - cbn [commas head]. rewrite Hp. reflexivity.
  - pose proof Hall as Hall'. cbn [all_digits] in Hall'.
    apply andb_true_iff in Hall' as [Hc Hs].
    cbn [commas head]. rewrite Hp, (digit_is_word _ Hc). cbn [Bool.eqb andb].
    rewrite (triples_digits _ (String c s) (le_n _) Hall).
    rewrite (IH c (digit_is_word _ Hc) Hs). reflexivity.
Qed.

(** After anything else, and at the start, no comma comes first. *)
Lemma commas_after_other prev s :
  is_word prev = false -> all_digits s = true ->
  commas prev s = group_thousands s.
Proof.
  intros Hprev Hall. destruct s as [|c s].
  - cbn [commas head is_word]. rewrite Hprev. reflexivity.
  - cbn [all_digits] in Hall. apply andb_true_iff in Hall as [Hc Hs].
    cbn [commas head]. rewrite Hprev, (digit_is_word _ Hc). cbn [Bool.eqb andb].
    rewrite (commas_after_word s c (digit_is_word _ Hc) Hs). reflexivity.
Qed.

Lemma digits_of_uint (u : Decimal.uint) : all_digits (NilEmpty.string_of_uint u) = true.
Proof. induction u; cbn [NilEmpty.string_of_uint all_digits]; try exact IHu; reflexivity. Qed.

Lemma digits_of_positive (p : positive) :
  all_digits (NilZero.string_of_uint (Pos.to_uint p)) = true.
Proof.
  pose proof (DecimalPos.Unsigned.to_uint_nonnil p) as Hnil.
  pose proof (digits_of_uint (Pos.to_uint p)) as Hall.
  destruct (Pos.to_uint p); [contradiction|exact Hall..].
Qed.

(** X23. [formatNumber] groups a safe integer, one of magnitude below
    2^53, by thousands: the decimal digits of its magnitude, with a comma
    before every block of three counted from the right and none in front,
    after the minus sign of a negative one. *)
Theorem formatNumber_groups_thousands (n : Z) :
  (Z.abs n < 2 ^ 53)%Z ->
  all_digits (string_of_Z (Z.abs n)) = true /\
  formatNumber (Some n)
  = Some ((if (n <? 0)%Z then "-" else "") +:+ group_thousands (string_of_Z (Z.abs n))).
Proof.
  intros Hsafe. apply Z.ltb_lt in Hsafe.
  unfold formatNumber, Number_toString. rewrite Hsafe. cbn [option_map].
  unfold string_of_Z.
  destruct n as [|p|p]; cbn [Z.abs Z.to_int NilZero.string_of_int Z.ltb Z.compare].
  - split; reflexivity.
  - split; [apply digits_of_positive|]. f_equal.
    apply commas_after_other; [reflexivity|apply digits_of_positive].
  - split; [apply digits_of_positive|]. f_equal.
    rewrite !app_cons, !app_empty. cbn [commas head is_word].
    rewrite triples_not_a_digit by reflexivity. cbn [Bool.eqb andb].
    rewrite (commas_after_other (Some "-"%char)); [reflexivity|reflexivity|].
    apply digits_of_positive.
Qed.

End UtilsFacts.

(** ** Instances of the further properties on sample inputs *)
Module MoreChecks.
Import RefJSON Samples MoreSamples ApiJs ApiJsRest Spec RawSpec.
#[local] Existing Instance codec.

Lemma request_session_changes_only_on_401_witness :
  localStorage (request "/api/tasks" GET (page "/pages/dashboard.html" unavailable) logged_in).1
    = localStorage logged_in /\
  navigations
    (events (request "/api/tasks" GET (page "/pages/dashboard.html" unavailable) logged_in).1)
    = [].
Proof.
  destruct (GatewayFrame.request_session_changes_only_on_401
              (page "/pages/dashboard.html" unavailable) logged_in "/api/tasks" GET)
    as (Hstore & Hnav & _).
  - intros resp Hans. injection Hans as <-. discriminate.
  - split; [exact Hstore|exact Hnav].
Defined.

Lemma request_headers_precedence_witness :
  request_headers (Some "t0k3n") (POST task) !! "Authorization" = Some "Bearer t0k3n".
Proof.
  apply (proj1 (proj2 (GatewayFrame.request_headers_precedence (Some "t0k3n") (POST task)))
           "t0k3n").
  - reflexivity.
  - apply String.eqb_neq. reflexivity.
Defined.

Lemma getProfile_caches_witness :
  (getProfile (page "/pages/dashboard.html" (json_response 200 profile)) logged_in).2
    = inr profile /\
  localStorage (getProfile (page "/pages/dashboard.html" (json_response 200 profile))
                  logged_in).1 !! "current_user"
    = Some (stringify ann).
Proof.
  destruct (FacadeMore.getProfile_caches
              (page "/pages/dashboard.html" (json_response 200 profile)) logged_in
              (json_response 200 profile) profile (Some ann))
    as (Hret & _ & Huser & _).
  - reflexivity.
  - reflexivity.
  - vm_compute. reflexivity.
  - reflexivity.
  - split; [exact Hret|apply (Huser ann); reflexivity].
Defined.

Lemma getProfile_null_rejects_witness :
  (getProfile (page "/pages/dashboard.html" (json_response 200 JNull)) logged_in).2
    = inl (TypeError "Cannot read properties of null (reading 'user')") /\
  localStorage (getProfile (page "/pages/dashboard.html" (json_response 200 JNull))
                  logged_in).1
    = localStorage logged_in.
Proof.
  apply (FacadeMore.getProfile_null_rejects
           (page "/pages/dashboard.html" (json_response 200 JNull)) logged_in
           (json_response 200 JNull)).
  - reflexivity.
  - reflexivity.
  - vm_compute. reflexivity.
Defined.

Lemma current_user_round_trip_witness :
  (setCurrentUser ann ;;; getCurrentUser) (offline_page "/pages/profile.html") logged_out
  = ({| localStorage := <[ "current_user" := JSON_stringify ann ]> (localStorage logged_out);
        events := events logged_out |}, inr ann).
Proof.
  apply (FacadeMore.current_user_round_trip (offline_page "/pages/profile.html")
           logged_out ann).
  - vm_compute. reflexivity.
  - apply String.eqb_neq. vm_compute. reflexivity.
Defined.

Lemma getCurrentUser_edges_witness :
  getCurrentUser (offline_page "/pages/profile.html") logged_out = (logged_out, inr JNull).
Proof.
  apply (proj1 (FacadeMore.getCurrentUser_edges (offline_page "/pages/profile.html")
                  logged_out)).
  reflexivity.
Defined.

Lemma session_needs_token_witness :
  (login credentials (page "/pages/login.html" (json_response 200 profile)) logged_out).2
    = inr profile /\
  localStorage
    (login credentials (page "/pages/login.html" (json_response 200 profile)) logged_out).1
    = ∅.
Proof.
  apply (FacadeMore.session_needs_token Login
           (page "/pages/login.html" (json_response 200 profile)) logged_out credentials
           (json_response 200 profile) profile None).
  - reflexivity.
  - reflexivity.
  - vm_compute. reflexivity.
  - reflexivity.
  - reflexivity.
Defined.


Lemma isAuthenticated_matches_header_witness :
  (Utils.isAuthenticated (offline_page "/pages/dashboard.html") logged_in).2 = inr true <->
  is_Some (request_headers (localStorage logged_in !! "auth_token") GET !! "Authorization").
Proof.
  apply (FacadeMore.isAuthenticated_matches_header (offline_page "/pages/dashboard.html")
           logged_in GET).
  reflexivity.
Defined.

Lemma unauthorized_ends_the_session_witness :
  (Utils.isAuthenticated (page "/pages/dashboard.html" token_expired)
     (request "/api/tasks" GET (page "/pages/dashboard.html" token_expired) logged_in).1).2
  = inr false.
Proof.
  apply (FacadeMore.unauthorized_ends_the_session
           (page "/pages/dashboard.html" token_expired) logged_in "/api/tasks" GET
           token_expired (JObj [("message", JStr "Token expired")])).
  - reflexivity.
  - reflexivity.
  - vm_compute. reflexivity.
Defined.

Lemma raw_login_admits_witness :
  (ApiRaw.login credentials (page "/pages/login.html" (json_response 200 session))
     logged_out).2 = inr session /\
  localStorage
    (ApiRaw.login credentials (page "/pages/login.html" (json_response 200 session))
       logged_out).1 !! "token" = Some "abc123".
Proof.
  destruct (Variants.raw_login_admits
              (page "/pages/login.html" (json_response 200 session)) logged_out credentials
              (json_response 200 session) session "abc123")
    as (Hret & Htoken & _).
  - reflexivity.
  - reflexivity.
  - vm_compute. reflexivity.
  - reflexivity.
  - apply String.eqb_neq. reflexivity.
  - split; [exact Hret|exact Htoken].
Defined.

Lemma raw_unauthorized_witness :
  localStorage
    (ApiRaw.request "/api/tasks" no_options (page "/pages/login.html" token_expired)
       raw_logged_in).1 !! "token" = None /\
  navigations
    (events (ApiRaw.request "/api/tasks" no_options (page "/pages/login.html" token_expired)
               raw_logged_in).1)
  = ["/pages/login.html"].
Proof.
  destruct (Variants.raw_unauthorized
              (page "/pages/login.html" token_expired) raw_logged_in "/api/tasks" no_options
              token_expired (JObj [("message", JStr "Token expired")]))
    as (_ & Htoken & Hnav & _).
  - reflexivity.
  - reflexivity.
  - vm_compute. reflexivity.
  - split; [exact Htoken|exact Hnav].
Defined.

Lemma raw_unreadable_body_witness :
  (ApiRaw.request "/api/tasks" no_options
     (page "/pages/dashboard.html" (text_response 200 "<html></html>")) raw_logged_in).2
  = inl (SyntaxError "Unexpected token in JSON").
Proof.
  apply (Variants.raw_unreadable_body
           (page "/pages/dashboard.html" (text_response 200 "<html></html>")) raw_logged_in
           "/api/tasks" no_options (text_response 200 "<html></html>")).
  - reflexivity.
  - vm_compute. reflexivity.
Defined.

Lemma raw_failure_message_witness :
  (ApiRaw.request "/api/auth/register" (ApiRaw.POST credentials)
     (page "/pages/register.html" (json_response 400 email_taken)) logged_out).2
  = inl (Error "Email already registered").
Proof.
  destruct (Variants.raw_failure_message
              (page "/pages/register.html" (json_response 400 email_taken)) logged_out
              "/api/auth/register" (ApiRaw.POST credentials)
              (json_response 400 email_taken) email_taken
              (Some (JStr "Email already registered")) None)
    as (Hmsg & _).
  - reflexivity.
  - reflexivity.
  - vm_compute. reflexivity.
  - reflexivity.
  - reflexivity.
  - apply (Hmsg (JStr "Email already registered")); reflexivity.
Defined.

Lemma registerUser_stores_nothing_witness :
  (ApiFlat.registerUser credentials
     (page "/pages/register.html" (json_response 201 session)) logged_out).2 = inr session /\
  localStorage
    (ApiFlat.registerUser credentials
       (page "/pages/register.html" (json_response 201 session)) logged_out).1 = ∅.
Proof.
  apply (Variants.registerUser_stores_nothing
           (page "/pages/register.html" (json_response 201 session)) logged_out credentials
           (json_response 201 session) session).
  - reflexivity.
  - reflexivity.
  - vm_compute. reflexivity.
Defined.

Lemma truncateText_keeps_prefix_witness :
  Utils.truncateText "Fix bug" 7 = "Fix bug".
Proof.
  apply (proj1 (UtilsFacts.truncateText_keeps_prefix "Fix bug" 7 ltac:(lia))).
  cbn. lia.
Defined.

Lemma currentPage_names_the_file_witness :
  Utils.currentPage "/pages/dashboard.html" = "dashboard".
Proof.
  apply (proj1 (UtilsFacts.currentPage_names_the_file "/pages") "dashboard").
  - reflexivity.
  - reflexivity.
  - apply String.eqb_neq. reflexivity.
Defined.

Lemma formatNumber_groups_thousands_witness :
  Utils.formatNumber (Some 1234567%Z) = Some "1,234,567".
Proof.
  destruct (UtilsFacts.formatNumber_groups_thousands 1234567) as [_ Hformat].
  - reflexivity.
  - exact Hformat.
Defined.

End MoreChecks.
